(** * Transaction-pool client facade ([client/rpc/eth.go])

    A shallow embedding of the [publicTransactionPool] facade: every method
    builds a result holder, makes one [CallContext] on the client it holds
    and returns the holder or the error.

    The file has four parts:
    - the data model: the Go types the facade names ([common.Hash],
      [hexutil.Big], [RPCTransaction], ...), JSON values and the way
      [encoding/json] and [hexutil] read and write them;
    - the client: [CallContext] as a capability of the transport, with two
      transports used in the statements, [spy] (records the requests it is
      given) and [stub] (answers from a canned server);
    - the facade: one definition per method of [eth.go];
    - the properties. *)

From Stdlib Require Import ZArith NArith List String Ascii Lia.
From Stdlib Require Import Strings.Byte.
From Stdlib Require Import HexadecimalString HexadecimalN HexadecimalFacts.
From stdpp Require Import base option list strings gmap vector.

Local Open Scope string_scope.
Local Open Scope list_scope.

(** ** Go values *)

(** [[]T]: a slice is either nil or holds elements; the empty slice is not
    the nil slice. *)
Inductive slice (A : Type) : Type :=
| Nil : slice A
| Elems (l : list A) : slice A.
Arguments Nil {A}.
Arguments Elems {A} l.

(** A pointer [*T] is [option T]: [None] is the nil pointer. *)

(** [common.Hash] is [[32]byte], [common.Address] is [[20]byte]. *)
Module common.
Abbreviation Hash := (vec byte 32).
Abbreviation Address := (vec byte 20).
End common.

(** [hexutil.Big] wraps a [big.Int]. *)
Abbreviation Big := Z.

(** [hexutil.Uint], [hexutil.Uint64] and [hexutil.Bytes] are named types
    with decoders of their own. *)
Record Uint : Type := mkUint { uint_val : N }.
Record Uint64 : Type := mkUint64 { uint64_val : N }.
Record Bytes : Type := mkBytes { bytes_val : slice byte }.

(** The zero value of a type, as [var r T] gives it. *)
Class Zero (T : Type) : Type := zero : T.
Global Hint Mode Zero ! : typeclass_instances.

#[global] Instance zero_ptr {T} : Zero (option T) := None.
#[global] Instance zero_slice {T} : Zero (slice T) := Nil.
#[global] Instance zero_fixed {n} : Zero (vec byte n) := vreplicate n x00.
#[global] Instance zero_Big : Zero Big := 0%Z.
#[global] Instance zero_Uint : Zero Uint := mkUint 0.
#[global] Instance zero_Uint64 : Zero Uint64 := mkUint64 0.
#[global] Instance zero_Bytes : Zero Bytes := mkBytes Nil.

(** ** JSON values and errors *)

#[warnings="-register-all"]
Inductive json : Type :=
| JNull
| JBool (b : bool)
| JNumber (literal : string)
| JString (s : string)
| JArray (elems : list json)
| JObject (members : list (string * json)).

(** The name [encoding/json] gives a value's kind in a type error. *)
Definition kind_name (j : json) : string :=
  match j with
  | JNull => "null"
  | JBool _ => "bool"
  | JNumber _ => "number"
  | JString _ => "string"
  | JArray _ => "array"
  | JObject _ => "object"
  end.

(** The errors of [hexutil]. *)
Inductive decError : Type :=
| ErrSyntax | ErrMissingPrefix | ErrOddLength | ErrEmptyNumber
| ErrLeadingZero | ErrUint64Range | ErrUintRange | ErrBig256Range.

Inductive Mismatch : Type :=
| NonString
| Hex (e : decError)
| Kind (k : string).

(** The errors a call can end with: those of the connection, the error
    object of a JSON-RPC response, and those of decoding the result. *)
Inductive Error : Type :=
| ErrNetwork (reason : string)
| ErrRPC (code : Z) (message : string)
| ErrNoResult
| ErrUnmarshalType (value : Mismatch) (gotype : string)
| ErrHexLength (got want : nat) (gotype : string).

(** How decoding one value ended. [encoding/json] records a kind mismatch
    and goes on ([Done (Some e)]), and stops at once when a type's own
    [UnmarshalJSON] fails ([Abort e]). What was written before stays. *)
Inductive Status : Type :=
| Done (saved : option Error)
| Abort (e : Error).

Definition status_error (st : Status) : option Error :=
  match st with
  | Done saved => saved
  | Abort e => Some e
  end.

(** The first recorded error is the one kept. *)
Definition saveError (saved : option Error) (st : Status) : Status :=
  match st with
  | Done later => Done (match saved with Some e => Some e | None => later end)
  | Abort e => Abort e
  end.

(** [json.Unmarshal(data, &v)] at type [T]: the new content of [v] and how
    decoding ended. *)
Class Unmarshal (T : Type) : Type := unmarshal : json -> T -> T * Status.
Global Hint Mode Unmarshal ! : typeclass_instances.

(** [json.Marshal(v)] at type [T]. *)
Class Marshal (T : Type) : Type := marshal : T -> json.
Global Hint Mode Marshal ! : typeclass_instances.

(** The name of a Go type, as a type error prints it. *)
Class GoType (T : Type) : Type := typeName : string.
Global Hint Mode GoType ! : typeclass_instances.
Arguments typeName T {_}.

#[global] Instance name_ptr {T} `{GoType T} : GoType (option T) :=
  "*" +:+ typeName T.
#[global] Instance name_slice {T} `{GoType T} : GoType (slice T) :=
  "[]" +:+ typeName T.

(** ** hexutil *)

Module hexutil.

Definition decodeNibble (c : ascii) : option N :=
  let n := N_of_ascii c in
  if (48 <=? n)%N && (n <=? 57)%N then Some (n - 48)%N
  else if (65 <=? n)%N && (n <=? 70)%N then Some (n - 55)%N
  else if (97 <=? n)%N && (n <=? 102)%N then Some (n - 87)%N
  else None.

Definition hexdigit (n : N) : ascii :=
  if (n <? 10)%N then ascii_of_N (48 + n) else ascii_of_N (87 + n).

Definition has0xPrefix (s : string) : bool :=
  match s with
  | String "0" (String c _) => Ascii.eqb c "x" || Ascii.eqb c "X"
  | _ => false
  end.

Definition drop2 (s : string) : string :=
  match s with
  | String _ (String _ rest) => rest
  | _ => EmptyString
  end.

(** [checkText(input, true)] *)
Definition checkText (input : string) : decError + string :=
  if (String.length input =? 0)%nat then inr EmptyString
  else if has0xPrefix input then
    let input := drop2 input in
    if Nat.even (String.length input) then inr input else inl ErrOddLength
  else inl ErrMissingPrefix.

(** [checkNumberText(input)] *)
Definition checkNumberText (input : string) : decError + string :=
  if (String.length input =? 0)%nat then inr EmptyString
  else if negb (has0xPrefix input) then inl ErrMissingPrefix
  else
    let input := drop2 input in
    match input with
    | EmptyString => inl ErrEmptyNumber
    | String c rest =>
        if (1 <? String.length input)%nat && Ascii.eqb c "0"
        then inl ErrLeadingZero else inr input
    end.

(** [hex.Decode]: two digits a byte. *)
Fixpoint decodeBytes (raw : string) : option (list byte) :=
  match raw with
  | EmptyString => Some []
  | String hi rest =>
      match rest with
      | EmptyString => None
      | String lo rest' =>
          match decodeNibble hi, decodeNibble lo, decodeBytes rest' with
          | Some h, Some l, Some bs =>
              match Byte.of_N (16 * h + l) with
              | Some b => Some (b :: bs)
              | None => None
              end
          | _, _, _ => None
          end
      end
  end.

Fixpoint encodeBytes (bs : list byte) : string :=
  match bs with
  | [] => EmptyString
  | b :: bs' =>
      let n := Byte.to_N b in
      String (hexdigit (n / 16)) (String (hexdigit (n mod 16)) (encodeBytes bs'))
  end.

(** [hexutil.Encode] *)
Definition Encode (bs : list byte) : string := "0x" +:+ encodeBytes bs.

(** The digits of a number, most significant first. *)
Fixpoint decodeDigits (raw : string) (acc : N) : option N :=
  match raw with
  | EmptyString => Some acc
  | String c rest =>
      match decodeNibble c with
      | Some d => decodeDigits rest (16 * acc + d)%N
      | None => None
      end
  end.

(** [hexutil.EncodeUint64] *)
Definition EncodeUint64 (n : N) : string :=
  "0x" +:+ NilZero.string_of_uint (N.to_hex_uint n).

(** [hexutil.EncodeBig] *)
Definition EncodeBig (z : Z) : string :=
  if (z =? 0)%Z then "0x0"
  else if (0 <? z)%Z then "0x" +:+ NilZero.string_of_uint (N.to_hex_uint (Z.to_N z))
  else "-0x" +:+ NilZero.string_of_uint (N.to_hex_uint (Z.abs_N z)).

(** [Bytes.UnmarshalText]: the slice is assigned only on success. *)
Definition Bytes_UnmarshalText (input : string) : decError + list byte :=
  match checkText input with
  | inl e => inl e
  | inr raw =>
      match decodeBytes raw with
      | Some dec => inr dec
      | None => inl ErrSyntax
      end
  end.

(** [Uint64.UnmarshalText] *)
Definition Uint64_UnmarshalText (input : string) : decError + N :=
  match checkNumberText input with
  | inl e => inl e
  | inr raw =>
      if (16 <? String.length raw)%nat then inl ErrUint64Range
      else match decodeDigits raw 0 with
           | Some dec => inr dec
           | None => inl ErrSyntax
           end
  end.

(** [Uint.UnmarshalText], on a platform whose [uint] has 64 bits. *)
Definition Uint_UnmarshalText (input : string) : decError + N :=
  match Uint64_UnmarshalText input with
  | inl ErrUint64Range => inl ErrUintRange
  | inl e => inl e
  | inr u64 => if (18446744073709551615 <? u64)%N then inl ErrUintRange else inr u64
  end.

(** [Big.UnmarshalText] *)
Definition Big_UnmarshalText (input : string) : decError + Z :=
  match checkNumberText input with
  | inl e => inl e
  | inr raw =>
      if (64 <? String.length raw)%nat then inl ErrBig256Range
      else match decodeDigits raw 0 with
           | Some dec => inr (Z.of_N dec)
           | None => inl ErrSyntax
           end
  end.

(** [UnmarshalFixedText(typname, input, out)]: [out] has [n] bytes. *)
Definition UnmarshalFixedText (typname : string) (n : nat) (input : string)
  : Error + list byte :=
  match checkText input with
  | inl e => inl (ErrUnmarshalType (Hex e) typname)
  | inr raw =>
      if negb (String.length raw / 2 =? n)%nat
      then inl (ErrHexLength (String.length raw) (n * 2) typname)
      else match decodeBytes raw with
           | Some dec => inr dec
           | None => inl (ErrUnmarshalType (Hex ErrSyntax) typname)
           end
  end.

End hexutil.

(** ** Decoding and encoding the leaf types *)

(** Every [hexutil] and [common] type has an [UnmarshalJSON] that accepts a
    JSON string only ([errNonString] otherwise, also for null) and hands its
    content to [UnmarshalText]; a failure stops the decoding. *)
Definition wrapTypeError {A} (typ : string) (r : decError + A) : Error + A :=
  match r with
  | inl e => inl (ErrUnmarshalType (Hex e) typ)
  | inr a => inr a
  end.

Definition fromText {A T} (typ : string) (dec : string -> Error + A)
    (store : A -> T) (j : json) (old : T) : T * Status :=
  match j with
  | JString s =>
      match dec s with
      | inl e => (old, Abort e)
      | inr a => (store a, Done None)
      end
  | _ => (old, Abort (ErrUnmarshalType NonString typ))
  end.

(** A list of exactly [n] bytes as an array. *)
Fixpoint toArray (n : nat) (bs : list byte) : option (vec byte n) :=
  match n with
  | O => match bs with [] => Some [#] | _ => None end
  | S n' =>
      match bs with
      | [] => None
      | b :: bs' => option_map (vcons b) (toArray n' bs')
      end
  end.

Definition unmarshalFixed (typ : string) (n : nat) : Unmarshal (vec byte n) :=
  fun j old =>
    fromText typ
      (fun s => match hexutil.UnmarshalFixedText typ n s with
                | inl e => inl e
                | inr bs => match toArray n bs with
                            | Some a => inr a
                            | None => inl (ErrHexLength (length bs * 2) (n * 2) typ)
                            end
                end)
      (fun a => a) j old.

#[global] Instance unmarshal_Hash : Unmarshal common.Hash :=
  unmarshalFixed "common.Hash" 32.
#[global] Instance unmarshal_Address : Unmarshal common.Address :=
  unmarshalFixed "common.Address" 20.
#[global] Instance unmarshal_Bytes : Unmarshal Bytes :=
  fromText "hexutil.Bytes"
    (fun s => wrapTypeError "hexutil.Bytes" (hexutil.Bytes_UnmarshalText s))
    (fun bs => mkBytes (Elems bs)).
#[global] Instance unmarshal_Big : Unmarshal Big :=
  fromText "*hexutil.Big"
    (fun s => wrapTypeError "*hexutil.Big" (hexutil.Big_UnmarshalText s))
    (fun z => z).
#[global] Instance unmarshal_Uint64 : Unmarshal Uint64 :=
  fromText "hexutil.Uint64"
    (fun s => wrapTypeError "hexutil.Uint64" (hexutil.Uint64_UnmarshalText s))
    mkUint64.
#[global] Instance unmarshal_Uint : Unmarshal Uint :=
  fromText "hexutil.Uint"
    (fun s => wrapTypeError "hexutil.Uint" (hexutil.Uint_UnmarshalText s))
    mkUint.

(** The elements of a slice, nil or not. *)
Definition elements {A} (s : slice A) : list A :=
  match s with
  | Nil => []
  | Elems l => l
  end.

(** All [MarshalText] methods have value receivers: a nil [hexutil.Bytes]
    is written as ["0x"], never as null. *)
#[global] Instance marshal_fixed {n} : Marshal (vec byte n) :=
  fun a => JString (hexutil.Encode (vec_to_list a)).
#[global] Instance marshal_Bytes : Marshal Bytes :=
  fun b => JString (hexutil.Encode (elements (bytes_val b))).
#[global] Instance marshal_Big : Marshal Big :=
  fun z => JString (hexutil.EncodeBig z).
#[global] Instance marshal_Uint64 : Marshal Uint64 :=
  fun n => JString (hexutil.EncodeUint64 (uint64_val n)).
#[global] Instance marshal_Uint : Marshal Uint :=
  fun n => JString (hexutil.EncodeUint64 (uint_val n)).

(** ** Pointers, slices and maps *)

(** Into a pointer, null stores nil; any other value is decoded into the
    pointee, which is allocated first when the pointer is nil. *)
#[global] Instance unmarshal_ptr {T} `{Unmarshal T} `{Zero T} : Unmarshal (option T) :=
  fun j p =>
    match j with
    | JNull => (None, Done None)
    | _ => let (v, st) := unmarshal j (default zero p) in (Some v, st)
    end.

(** A nil pointer is written as null. *)
#[global] Instance marshal_ptr {T} `{Marshal T} : Marshal (option T) :=
  fun p =>
    match p with
    | None => JNull
    | Some v => marshal v
    end.

(** The loop of [decodeState.array] over a slice: element [i] is decoded in
    place once the slice has at least [i + 1] elements; when an element
    stops the decoding, the elements after it are left as they were. *)
Fixpoint decodeElems {T} `{Unmarshal T} `{Zero T}
    (js : list json) (old : list T) : list T * Status :=
  match js with
  | [] => ([], Done None)
  | j :: js' =>
      let (x, st) := unmarshal j (hd zero old) in
      match st with
      | Abort e => (x :: tl old, Abort e)
      | Done saved =>
          let (xs, st') := decodeElems js' (tl old) in
          (x :: xs, saveError saved st')
      end
  end.

(** Into a slice: null stores nil, an array stores its elements (the empty
    array stores an empty slice, not nil), anything else is a kind
    mismatch that leaves the slice alone. *)
#[global] Instance unmarshal_slice {T} `{Unmarshal T} `{Zero T} `{GoType T}
  : Unmarshal (slice T) :=
  fun j s =>
    match j with
    | JNull => (Nil, Done None)
    | JArray js => let (xs, st) := decodeElems js (elements s) in (Elems xs, st)
    | _ => (s, Done (Some (ErrUnmarshalType (Kind (kind_name j)) (typeName (slice T)))))
    end.

#[global] Instance marshal_slice {T} `{Marshal T} : Marshal (slice T) :=
  fun s =>
    match s with
    | Nil => JNull
    | Elems l => JArray (map marshal l)
    end.

(** [map[string]interface{}]: nil, or a finite map from member names to
    values. A value decoded into [interface{}] keeps the shape of the JSON
    it came from, so it is kept as [json]. *)
Inductive object : Type :=
| NilMap
| Map (m : gmap string json).

#[global] Instance zero_object : Zero object := NilMap.

Definition entries (o : object) : gmap string json :=
  match o with
  | NilMap => ∅
  | Map m => m
  end.

#[global] Instance unmarshal_object : Unmarshal object :=
  fun j o =>
    match j with
    | JNull => (NilMap, Done None)
    | JObject ms =>
        (Map (fold_left (fun m kv => <[fst kv := snd kv]> m) ms (entries o)), Done None)
    | _ => (o, Done (Some (ErrUnmarshalType (Kind (kind_name j)) "map[string]interface {}")))
    end.

(** ** The records of [eth.go] *)

(** [types.Transaction] is go-ethereum's; its decoder checks the fields of
    the object it is given, which is not followed here: a transaction is
    kept as the members it was decoded from. *)
Record Transaction : Type := mkTransaction { tx_members : list (string * json) }.

#[global] Instance zero_Transaction : Zero Transaction := mkTransaction [].

#[global] Instance unmarshal_Transaction : Unmarshal Transaction :=
  fun j old =>
    match j with
    | JObject ms => (mkTransaction ms, Done None)
    | _ => (old, Abort (ErrUnmarshalType (Kind (kind_name j)) "types.Transaction"))
    end.

Module SendTxArgs.
Record t : Type := mk {
  From : common.Address;
  To : common.Address;
  Gas : Big;
  GasPrice : Big;
  Value : Big;
  Data : Bytes;
  Nonce : Uint64;
}.
End SendTxArgs.

Module SignTransactionResult.
Record t : Type := mk {
  Raw : Bytes;
  Tx : option Transaction;
}.
End SignTransactionResult.

Module RPCTransaction.
Record t : Type := mk {
  BlockHash : common.Hash;
  BlockNumber : option Big;
  From : common.Address;
  Gas : option Big;
  GasPrice : option Big;
  Hash : common.Hash;
  Input : Bytes;
  Nonce : Uint64;
  To : option common.Address;
  TransactionIndex : Uint;
  Value : option Big;
  V : option Big;
  R : option Big;
  S : option Big;
}.
End RPCTransaction.

#[global] Instance zero_SignTransactionResult : Zero SignTransactionResult.t :=
  SignTransactionResult.mk zero zero.
#[global] Instance zero_RPCTransaction : Zero RPCTransaction.t :=
  RPCTransaction.mk zero zero zero zero zero zero zero zero zero zero zero zero zero zero.

(** ** Decoding and encoding the records *)

(** [encoding/json] takes an object's members in the order they are
    written, finds the field a member names (letter case apart), decodes
    the value into it, and skips members no field answers to. *)
Definition lower (c : ascii) : ascii :=
  let n := N_of_ascii c in
  if (65 <=? n)%N && (n <=? 90)%N then ascii_of_N (n + 32) else c.

Fixpoint foldName (s : string) : string :=
  match s with
  | EmptyString => EmptyString
  | String c rest => String (lower c) (foldName rest)
  end.

Definition names (key tag : string) : bool :=
  String.eqb (foldName key) (foldName tag).

Fixpoint decodeMembers {T} (store : string -> json -> T -> T * Status)
    (ms : list (string * json)) (v : T) : T * Status :=
  match ms with
  | [] => (v, Done None)
  | (key, j) :: ms' =>
      let (v', st) := store key j v in
      match st with
      | Abort e => (v', Abort e)
      | Done saved =>
          let (v'', st') := decodeMembers store ms' v' in
          (v'', saveError saved st')
      end
  end.

(** Into a struct: an object stores its members, null has no effect, any
    other value is a kind mismatch. *)
Definition unmarshalStruct {T} (typ : string)
    (store : string -> json -> T -> T * Status) : Unmarshal T :=
  fun j v =>
    match j with
    | JObject ms => decodeMembers store ms v
    | JNull => (v, Done None)
    | _ => (v, Done (Some (ErrUnmarshalType (Kind (kind_name j)) typ)))
    end.

(** The field of [RPCTransaction] a member goes to, by its [json] tag. *)
Definition RPCTransaction_store (key : string) (j : json) (tx : RPCTransaction.t)
  : RPCTransaction.t * Status :=
  let 'RPCTransaction.mk bh bn fr g gp h inp n t ti v sv sr ss := tx in
  if names key "blockHash" then
    let (x, st) := unmarshal j bh in (RPCTransaction.mk x bn fr g gp h inp n t ti v sv sr ss, st)
  else if names key "blockNumber" then
    let (x, st) := unmarshal j bn in (RPCTransaction.mk bh x fr g gp h inp n t ti v sv sr ss, st)
  else if names key "from" then
    let (x, st) := unmarshal j fr in (RPCTransaction.mk bh bn x g gp h inp n t ti v sv sr ss, st)
  else if names key "gas" then
    let (x, st) := unmarshal j g in (RPCTransaction.mk bh bn fr x gp h inp n t ti v sv sr ss, st)
  else if names key "gasPrice" then
    let (x, st) := unmarshal j gp in (RPCTransaction.mk bh bn fr g x h inp n t ti v sv sr ss, st)
  else if names key "hash" then
    let (x, st) := unmarshal j h in (RPCTransaction.mk bh bn fr g gp x inp n t ti v sv sr ss, st)
  else if names key "input" then
    let (x, st) := unmarshal j inp in (RPCTransaction.mk bh bn fr g gp h x n t ti v sv sr ss, st)
  else if names key "nonce" then
    let (x, st) := unmarshal j n in (RPCTransaction.mk bh bn fr g gp h inp x t ti v sv sr ss, st)
  else if names key "to" then
    let (x, st) := unmarshal j t in (RPCTransaction.mk bh bn fr g gp h inp n x ti v sv sr ss, st)
  else if names key "transactionIndex" then
    let (x, st) := unmarshal j ti in (RPCTransaction.mk bh bn fr g gp h inp n t x v sv sr ss, st)
  else if names key "value" then
    let (x, st) := unmarshal j v in (RPCTransaction.mk bh bn fr g gp h inp n t ti x sv sr ss, st)
  else if names key "v" then
    let (x, st) := unmarshal j sv in (RPCTransaction.mk bh bn fr g gp h inp n t ti v x sr ss, st)
  else if names key "r" then
    let (x, st) := unmarshal j sr in (RPCTransaction.mk bh bn fr g gp h inp n t ti v sv x ss, st)
  else if names key "s" then
    let (x, st) := unmarshal j ss in (RPCTransaction.mk bh bn fr g gp h inp n t ti v sv sr x, st)
  else (tx, Done None).

#[global] Instance name_RPCTransaction : GoType RPCTransaction.t :=
  "rpc.RPCTransaction".

#[global] Instance unmarshal_RPCTransaction : Unmarshal RPCTransaction.t :=
  unmarshalStruct (typeName RPCTransaction.t) RPCTransaction_store.

(** The fields are written in the order of the declaration, each under its
    tag; no field is tagged [omitempty]. *)
#[global] Instance marshal_RPCTransaction : Marshal RPCTransaction.t :=
  fun tx =>
    JObject
      [ ("blockHash", marshal (RPCTransaction.BlockHash tx));
        ("blockNumber", marshal (RPCTransaction.BlockNumber tx));
        ("from", marshal (RPCTransaction.From tx));
        ("gas", marshal (RPCTransaction.Gas tx));
        ("gasPrice", marshal (RPCTransaction.GasPrice tx));
        ("hash", marshal (RPCTransaction.Hash tx));
        ("input", marshal (RPCTransaction.Input tx));
        ("nonce", marshal (RPCTransaction.Nonce tx));
        ("to", marshal (RPCTransaction.To tx));
        ("transactionIndex", marshal (RPCTransaction.TransactionIndex tx));
        ("value", marshal (RPCTransaction.Value tx));
        ("v", marshal (RPCTransaction.V tx));
        ("r", marshal (RPCTransaction.R tx));
        ("s", marshal (RPCTransaction.S tx)) ].

Definition SignTransactionResult_store (key : string) (j : json)
    (res : SignTransactionResult.t) : SignTransactionResult.t * Status :=
  let 'SignTransactionResult.mk raw tx := res in
  if names key "raw" then
    let (x, st) := unmarshal j raw in (SignTransactionResult.mk x tx, st)
  else if names key "tx" then
    let (x, st) := unmarshal j tx in (SignTransactionResult.mk raw x, st)
  else (res, Done None).

#[global] Instance unmarshal_SignTransactionResult : Unmarshal SignTransactionResult.t :=
  unmarshalStruct "rpc.SignTransactionResult" SignTransactionResult_store.

(** The value of a member of an object, by its exact name. *)
Definition member (name : string) (j : json) : option json :=
  match j with
  | JObject ms => snd <$> find (fun kv => String.eqb (fst kv) name) ms
  | _ => None
  end.

(** ** The client *)

(** [context.Context]: the deadline and the cancellation signal a caller
    hands to an operation. *)
Module context.
Record Context : Type := mk {
  deadline : option Z;
  cancelled : bool;
}.
Definition Background : Context := mk None false.
End context.

(** The values the facade passes as [args ...interface{}], each with the
    type it has in the call. *)
Inductive Arg : Type :=
| ArgString (s : string)
| ArgHash (h : common.Hash)
| ArgAddress (a : common.Address)
| ArgUint (u : Uint)
| ArgBytes (b : Bytes)
| ArgBig (z : Big)
| ArgSendTxArgs (a : SendTxArgs.t).

(** [client.Client] as the facade sees it: one capability, [CallContext],
    which is given the context, the result holder, the method name and the
    arguments, and ends with the holder as it left it and an error or nil.
    [W] is whatever the transport and the node behind it keep. *)
Record Client (W : Type) : Type := mkClient {
  CallContext :
    forall (T : Type), Unmarshal T ->
      context.Context -> T -> string -> list Arg -> W -> (T * option Error) * W;
}.
Arguments mkClient {W} _.
Arguments CallContext {W} _ T {_} _ _ _ _ _.

(** What a transport is asked. *)
Record Request : Type := mkRequest {
  req_ctx : context.Context;
  req_method : string;
  req_params : list Arg;
}.

(** [spy c] behaves as [c] and keeps the requests in the order they were
    made. *)
Definition spy {W} (c : Client W) : Client (W * list Request) :=
  mkClient (fun T U ctx r method args '(w, log) =>
    let '(out, w') := CallContext c T ctx r method args w in
    (out, (w', log ++ [mkRequest ctx method args]))).

(** What comes back for a request: a failure of the connection or an error
    object, or the [result] member of the response. *)
Inductive Reply : Type :=
| Failure (e : Error)
| Result (j : json).

(** A transport that answers from a canned server and decodes the way
    go-ethereum's [rpc.Client.CallContext] does: a failure is returned
    without touching the holder, a result is unmarshalled into it. It
    keeps the requests it was asked. *)
Definition stub (server : Request -> Reply) : Client (list Request) :=
  mkClient (fun T U ctx r method args log =>
    let rq := mkRequest ctx method args in
    match server rq with
    | Failure e => ((r, Some e), log ++ [rq])
    | Result j =>
        let (r', st) := unmarshal j r in
        ((r', status_error st), log ++ [rq])
    end).

(** ** The facade *)

Record publicTransactionPool (W : Type) : Type := mkPool {
  client : Client W;
}.
Arguments mkPool {W} _.
Arguments client {W} _.

(** [NewPublicTransactionPool] *)
Definition NewPublicTransactionPool {W} (client : Client W) : publicTransactionPool W :=
  mkPool client.

(** [eth] embeds the pool; [NewEth] builds it around a client. *)
Record eth (W : Type) : Type := mkEth {
  PublicTransactionPool : publicTransactionPool W;
}.
Arguments mkEth {W} _.
Arguments PublicTransactionPool {W} _.

Definition NewEth {W} (client : Client W) : eth W :=
  mkEth (NewPublicTransactionPool client).

(** What a method can reach: its receiver and, through the client, the
    world outside. *)
Record Heap (W : Type) : Type := mkHeap {
  pub : publicTransactionPool W;
  net : W;
}.
Arguments mkHeap {W} _ _.
Arguments pub {W} _.
Arguments net {W} _.

(** A method body is a state transformer over the heap. *)
Definition Method (W A : Type) : Type := Heap W -> A * Heap W.

Definition ret {W A} (a : A) : Method W A := fun h => (a, h).

Definition bind {W A B} (m : Method W A) (k : A -> Method W B) : Method W B :=
  fun h => let (a, h') := m h in k a h'.

Notation "'let*' p ':=' m 'in' k" := (bind m (fun p => k))
  (at level 10, p pattern, m at level 200, k at level 200).

(** [pub.client.CallContext(ctx, &r, method, args...)] *)
Definition pub_client_CallContext {W T} `{Unmarshal T}
    (ctx : context.Context) (r : T) (method : string) (args : list Arg)
  : Method W (T * option Error) :=
  fun h =>
    let (out, w') := CallContext (client (pub h)) T ctx r method args (net h) in
    (out, mkHeap (pub h) w').

(** [GetBlockTransactionCountByNumber] returns the number of transactions
    in the block with the given block number. *)
Definition GetBlockTransactionCountByNumber {W}
    (ctx : context.Context) (blockNr : string)
  : Method W (option Uint * option Error) :=
  let r : option Uint := None in
  let* (r, err) :=
    pub_client_CallContext ctx r "eth_getBlockTransactionCountByNumber"
      [ArgString blockNr] in
  match err with
  | Some _ => ret (None, err)
  | None => ret (r, None)
  end.

(** [GetBlockTransactionCountByHash] returns the number of transactions in
    the block with the given hash. *)
Definition GetBlockTransactionCountByHash {W}
    (ctx : context.Context) (blockHash : common.Hash)
  : Method W (option Uint * option Error) :=
  let r : option Uint := None in
  let* (r, err) :=
    pub_client_CallContext ctx r "eth_getBlockTransactionCountByHash"
      [ArgHash blockHash] in
  match err with
  | Some _ => ret (None, err)
  | None => ret (r, None)
  end.

(** [GetTransactionByBlockNumberAndIndex] returns the transaction for the
    given block number and index. *)
Definition GetTransactionByBlockNumberAndIndex {W}
    (ctx : context.Context) (blockNr : string) (index : Uint)
  : Method W (option RPCTransaction.t * option Error) :=
  let r : option RPCTransaction.t := None in
  let* (r, err) :=
    pub_client_CallContext ctx r "eth_getTransactionByBlockNumberAndIndex"
      [ArgString blockNr; ArgUint index] in
  match err with
  | Some _ => ret (None, err)
  | None => ret (r, None)
  end.

(** [GetTransactionByBlockHashAndIndex] returns the transaction for the
    given block hash and index. *)
Definition GetTransactionByBlockHashAndIndex {W}
    (ctx : context.Context) (blockHash : common.Hash) (index : Uint)
  : Method W (option RPCTransaction.t * option Error) :=
  let r : option RPCTransaction.t := None in
  let* (r, err) :=
    pub_client_CallContext ctx r "eth_getTransactionByBlockNumberAndIndex"
      [ArgHash blockHash; ArgUint index] in
  match err with
  | Some _ => ret (None, err)
  | None => ret (r, None)
  end.

(** [GetRawTransactionByBlockNumberAndIndex] returns the bytes of the
    transaction for the given block number and index. *)
Definition GetRawTransactionByBlockNumberAndIndex {W}
    (ctx : context.Context) (blockNr : string) (index : Uint)
  : Method W (Bytes * option Error) :=
  let r : Bytes := mkBytes Nil in
  let* (r, err) :=
    pub_client_CallContext ctx r "eth_getRawTransactionByBlockNumberAndIndex"
      [ArgString blockNr; ArgUint index] in
  match err with
  | Some _ => ret (r, err)
  | None => ret (r, None)
  end.

(** [GetRawTransactionByBlockHashAndIndex] returns the bytes of the
    transaction for the given block hash and index. *)
Definition GetRawTransactionByBlockHashAndIndex {W}
    (ctx : context.Context) (blockHash : common.Hash) (index : Uint)
  : Method W (Bytes * option Error) :=
  let r : Bytes := mkBytes Nil in
  let* (r, err) :=
    pub_client_CallContext ctx r "eth_getRawTransactionByBlockHashAndIndex"
      [ArgHash blockHash; ArgUint index] in
  match err with
  | Some _ => ret (r, err)
  | None => ret (r, None)
  end.

(** [GetTransactionCount] returns the number of transactions the given
    address has sent for the given block number. *)
Definition GetTransactionCount {W}
    (ctx : context.Context) (address : common.Address) (blockNr : string)
  : Method W (option Uint64 * option Error) :=
  let r : option Uint64 := None in
  let* (r, err) :=
    pub_client_CallContext ctx r "eth_getTransactionCount"
      [ArgAddress address; ArgString blockNr] in
  match err with
  | Some _ => ret (None, err)
  | None => ret (r, None)
  end.

(** [GetTransactionByHash] returns the transaction for the given hash. *)
Definition GetTransactionByHash {W}
    (ctx : context.Context) (hash : common.Hash)
  : Method W (option RPCTransaction.t * option Error) :=
  let r : option RPCTransaction.t := None in
  let* (r, err) :=
    pub_client_CallContext ctx r "eth_getTransactionByHash" [ArgHash hash] in
  match err with
  | Some _ => ret (None, err)
  | None => ret (r, None)
  end.

(** [GetRawTransactionByHash] returns the bytes of the transaction for the
    given hash. *)
Definition GetRawTransactionByHash {W}
    (ctx : context.Context) (hash : common.Hash)
  : Method W (Bytes * option Error) :=
  let r : Bytes := mkBytes Nil in
  let* (r, err) :=
    pub_client_CallContext ctx r "eth_getRawTransactionByHash" [ArgHash hash] in
  match err with
  | Some _ => ret (r, err)
  | None => ret (r, None)
  end.

(** [GetTransactionReceipt] returns the transaction receipt for the given
    transaction hash. *)
Definition GetTransactionReceipt {W}
    (ctx : context.Context) (hash : common.Hash)
  : Method W (object * option Error) :=
  let r : object := NilMap in
  let* (r, err) :=
    pub_client_CallContext ctx r "eth_getTransactionReceipt" [ArgHash hash] in
  match err with
  | Some _ => ret (r, err)
  | None => ret (r, None)
  end.

(** [SendTransaction] creates a transaction for the given argument, signs
    it and submits it to the transaction pool. *)
Definition SendTransaction {W}
    (ctx : context.Context) (args : SendTxArgs.t)
  : Method W (common.Hash * option Error) :=
  let r : common.Hash := zero in
  let* (r, err) :=
    pub_client_CallContext ctx r "eth_sendTransaction" [ArgSendTxArgs args] in
  match err with
  | Some _ => ret (r, err)
  | None => ret (r, None)
  end.

(** [SendRawTransaction] adds the signed transaction to the transaction
    pool. *)
Definition SendRawTransaction {W}
    (ctx : context.Context) (encodedTx : Bytes)
  : Method W (common.Hash * option Error) :=
  let r : common.Hash := zero in
  let* (r, err) :=
    pub_client_CallContext ctx r "eth_sendRawTransaction" [ArgBytes encodedTx] in
  match err with
  | Some _ => ret (r, err)
  | None => ret (r, None)
  end.

(** [Sign] calculates an ECDSA signature; the account associated with
    [addr] must be unlocked. *)
Definition Sign {W}
    (ctx : context.Context) (addr : common.Address) (data : Bytes)
  : Method W (Bytes * option Error) :=
  let r : Bytes := mkBytes Nil in
  let* (r, err) :=
    pub_client_CallContext ctx r "eth_sign" [ArgAddress addr; ArgBytes data] in
  match err with
  | Some _ => ret (mkBytes Nil, err)
  | None => ret (r, None)
  end.

(** [Resend] accepts an existing transaction and a new gas price and
    limit. *)
Definition Resend {W}
    (ctx : context.Context) (sendArgs : SendTxArgs.t) (gasPrice gasLimit : Big)
  : Method W (common.Hash * option Error) :=
  let r : common.Hash := zero in
  let* (r, err) :=
    pub_client_CallContext ctx r "eth_resend"
      [ArgSendTxArgs sendArgs; ArgBig gasPrice; ArgBig gasLimit] in
  match err with
  | Some _ => ret (r, err)
  | None => ret (r, None)
  end.

(** [SignTransaction] signs the given transaction with the from
    account. *)
Definition SignTransaction {W}
    (ctx : context.Context) (args : SendTxArgs.t)
  : Method W (option SignTransactionResult.t * option Error) :=
  let r : option SignTransactionResult.t := None in
  let* (r, err) :=
    pub_client_CallContext ctx r "eth_signTransaction" [ArgSendTxArgs args] in
  match err with
  | Some _ => ret (None, err)
  | None => ret (r, None)
  end.

(** [GetRawTransaction] returns the bytes of the transaction for the given
    hash. *)
Definition GetRawTransaction {W}
    (ctx : context.Context) (hash : common.Hash)
  : Method W (Bytes * option Error) :=
  let r : Bytes := mkBytes Nil in
  let* (r, err) :=
    pub_client_CallContext ctx r "eth_getRawTransactionByHash" [ArgHash hash] in
  match err with
  | Some _ => ret (r, err)
  | None => ret (r, None)
  end.

(** [PendingTransactions] returns the transactions that are in the
    transaction pool and have a from address that is one of the accounts
    this node manages. *)
Definition PendingTransactions {W}
    (ctx : context.Context)
  : Method W (slice (option RPCTransaction.t) * option Error) :=
  let r : slice (option RPCTransaction.t) := Nil in
  let* (r, err) :=
    pub_client_CallContext ctx r "eth_pendingTransactions" [] in
  match err with
  | Some _ => ret (r, err)
  | None => ret (r, None)
  end.

(** ** The method set *)

(** A call of a method of [publicTransactionPool] with its arguments: the
    sixteen methods of the [PublicTransactionPool] interface and
    [GetRawTransaction]. *)
Inductive Invocation : Type :=
| CallGetBlockTransactionCountByNumber (blockNr : string)
| CallGetBlockTransactionCountByHash (blockHash : common.Hash)
| CallGetTransactionByBlockNumberAndIndex (blockNr : string) (index : Uint)
| CallGetTransactionByBlockHashAndIndex (blockHash : common.Hash) (index : Uint)
| CallGetRawTransactionByBlockNumberAndIndex (blockNr : string) (index : Uint)
| CallGetRawTransactionByBlockHashAndIndex (blockHash : common.Hash) (index : Uint)
| CallGetTransactionCount (address : common.Address) (blockNr : string)
| CallGetTransactionByHash (hash : common.Hash)
| CallGetRawTransactionByHash (hash : common.Hash)
| CallGetTransactionReceipt (hash : common.Hash)
| CallSendTransaction (args : SendTxArgs.t)
| CallSendRawTransaction (encodedTx : Bytes)
| CallSign (addr : common.Address) (data : Bytes)
| CallSignTransaction (args : SendTxArgs.t)
| CallPendingTransactions
| CallResend (sendArgs : SendTxArgs.t) (gasPrice gasLimit : Big)
| CallGetRawTransaction (hash : common.Hash).

(** The methods the [PublicTransactionPool] interface declares. *)
Definition declared (i : Invocation) : bool :=
  match i with
  | CallGetRawTransaction _ => false
  | _ => true
  end.

(** The type of the value a method returns next to the error. *)
Definition ResultOf (i : Invocation) : Type :=
  match i with
  | CallGetBlockTransactionCountByNumber _ => option Uint
  | CallGetBlockTransactionCountByHash _ => option Uint
  | CallGetTransactionByBlockNumberAndIndex _ _ => option RPCTransaction.t
  | CallGetTransactionByBlockHashAndIndex _ _ => option RPCTransaction.t
  | CallGetRawTransactionByBlockNumberAndIndex _ _ => Bytes
  | CallGetRawTransactionByBlockHashAndIndex _ _ => Bytes
  | CallGetTransactionCount _ _ => option Uint64
  | CallGetTransactionByHash _ => option RPCTransaction.t
  | CallGetRawTransactionByHash _ => Bytes
  | CallGetTransactionReceipt _ => object
  | CallSendTransaction _ => common.Hash
  | CallSendRawTransaction _ => common.Hash
  | CallSign _ _ => Bytes
  | CallSignTransaction _ => option SignTransactionResult.t
  | CallPendingTransactions => slice (option RPCTransaction.t)
  | CallResend _ _ _ => common.Hash
  | CallGetRawTransaction _ => Bytes
  end.

(** Running the method an invocation names. *)
Definition invoke {W} (i : Invocation) (ctx : context.Context)
  : Method W (ResultOf i * option Error) :=
  match i with
  | CallGetBlockTransactionCountByNumber blockNr =>
      GetBlockTransactionCountByNumber ctx blockNr
  | CallGetBlockTransactionCountByHash blockHash =>
      GetBlockTransactionCountByHash ctx blockHash
  | CallGetTransactionByBlockNumberAndIndex blockNr index =>
      GetTransactionByBlockNumberAndIndex ctx blockNr index
  | CallGetTransactionByBlockHashAndIndex blockHash index =>
      GetTransactionByBlockHashAndIndex ctx blockHash index
  | CallGetRawTransactionByBlockNumberAndIndex blockNr index =>
      GetRawTransactionByBlockNumberAndIndex ctx blockNr index
  | CallGetRawTransactionByBlockHashAndIndex blockHash index =>
      GetRawTransactionByBlockHashAndIndex ctx blockHash index
  | CallGetTransactionCount address blockNr =>
      GetTransactionCount ctx address blockNr
  | CallGetTransactionByHash hash => GetTransactionByHash ctx hash
  | CallGetRawTransactionByHash hash => GetRawTransactionByHash ctx hash
  | CallGetTransactionReceipt hash => GetTransactionReceipt ctx hash
  | CallSendTransaction args => SendTransaction ctx args
  | CallSendRawTransaction encodedTx => SendRawTransaction ctx encodedTx
  | CallSign addr data => Sign ctx addr data
  | CallSignTransaction args => SignTransaction ctx args
  | CallPendingTransactions => PendingTransactions ctx
  | CallResend sendArgs gasPrice gasLimit => Resend ctx sendArgs gasPrice gasLimit
  | CallGetRawTransaction hash => GetRawTransaction ctx hash
  end.

(** The zero value of a method's result type, which is also what its
    holder starts as. *)
Definition zeroResult (i : Invocation) : ResultOf i :=
  match i with
  | CallGetBlockTransactionCountByNumber _ => None
  | CallGetBlockTransactionCountByHash _ => None
  | CallGetTransactionByBlockNumberAndIndex _ _ => None
  | CallGetTransactionByBlockHashAndIndex _ _ => None
  | CallGetRawTransactionByBlockNumberAndIndex _ _ => mkBytes Nil
  | CallGetRawTransactionByBlockHashAndIndex _ _ => mkBytes Nil
  | CallGetTransactionCount _ _ => None
  | CallGetTransactionByHash _ => None
  | CallGetRawTransactionByHash _ => mkBytes Nil
  | CallGetTransactionReceipt _ => NilMap
  | CallSendTransaction _ => zero
  | CallSendRawTransaction _ => zero
  | CallSign _ _ => mkBytes Nil
  | CallSignTransaction _ => None
  | CallPendingTransactions => Nil
  | CallResend _ _ _ => zero
  | CallGetRawTransaction _ => mkBytes Nil
  end.

(** How a method's holder is decoded. *)
Definition holderOf (i : Invocation) : Unmarshal (ResultOf i) :=
  match i with
  | CallGetBlockTransactionCountByNumber _ => unmarshal_ptr
  | CallGetBlockTransactionCountByHash _ => unmarshal_ptr
  | CallGetTransactionByBlockNumberAndIndex _ _ => unmarshal_ptr
  | CallGetTransactionByBlockHashAndIndex _ _ => unmarshal_ptr
  | CallGetRawTransactionByBlockNumberAndIndex _ _ => unmarshal_Bytes
  | CallGetRawTransactionByBlockHashAndIndex _ _ => unmarshal_Bytes
  | CallGetTransactionCount _ _ => unmarshal_ptr
  | CallGetTransactionByHash _ => unmarshal_ptr
  | CallGetRawTransactionByHash _ => unmarshal_Bytes
  | CallGetTransactionReceipt _ => unmarshal_object
  | CallSendTransaction _ => unmarshal_Hash
  | CallSendRawTransaction _ => unmarshal_Hash
  | CallSign _ _ => unmarshal_Bytes
  | CallSignTransaction _ => unmarshal_ptr
  | CallPendingTransactions => unmarshal_slice
  | CallResend _ _ _ => unmarshal_Hash
  | CallGetRawTransaction _ => unmarshal_Bytes
  end.

(** The methods that return nil, not the holder, next to an error: those
    with [return nil, err]. *)
Definition nilOnError (i : Invocation) : bool :=
  match i with
  | CallGetBlockTransactionCountByNumber _
  | CallGetBlockTransactionCountByHash _
  | CallGetTransactionByBlockNumberAndIndex _ _
  | CallGetTransactionByBlockHashAndIndex _ _
  | CallGetTransactionCount _ _
  | CallGetTransactionByHash _
  | CallSign _ _
  | CallSignTransaction _ => true
  | _ => false
  end.

(** The request a method makes: the name and the arguments it hands to
    [CallContext] ([facade_request] shows it is the one a transport
    sees). *)
Definition methodOf (i : Invocation) : string :=
  match i with
  | CallGetBlockTransactionCountByNumber _ => "eth_getBlockTransactionCountByNumber"
  | CallGetBlockTransactionCountByHash _ => "eth_getBlockTransactionCountByHash"
  | CallGetTransactionByBlockNumberAndIndex _ _ => "eth_getTransactionByBlockNumberAndIndex"
  | CallGetTransactionByBlockHashAndIndex _ _ => "eth_getTransactionByBlockNumberAndIndex"
  | CallGetRawTransactionByBlockNumberAndIndex _ _ => "eth_getRawTransactionByBlockNumberAndIndex"
  | CallGetRawTransactionByBlockHashAndIndex _ _ => "eth_getRawTransactionByBlockHashAndIndex"
  | CallGetTransactionCount _ _ => "eth_getTransactionCount"
  | CallGetTransactionByHash _ => "eth_getTransactionByHash"
  | CallGetRawTransactionByHash _ => "eth_getRawTransactionByHash"
  | CallGetTransactionReceipt _ => "eth_getTransactionReceipt"
  | CallSendTransaction _ => "eth_sendTransaction"
  | CallSendRawTransaction _ => "eth_sendRawTransaction"
  | CallSign _ _ => "eth_sign"
  | CallSignTransaction _ => "eth_signTransaction"
  | CallPendingTransactions => "eth_pendingTransactions"
  | CallResend _ _ _ => "eth_resend"
  | CallGetRawTransaction _ => "eth_getRawTransactionByHash"
  end.

Definition paramsOf (i : Invocation) : list Arg :=
  match i with
  | CallGetBlockTransactionCountByNumber blockNr => [ArgString blockNr]
  | CallGetBlockTransactionCountByHash blockHash => [ArgHash blockHash]
  | CallGetTransactionByBlockNumberAndIndex blockNr index => [ArgString blockNr; ArgUint index]
  | CallGetTransactionByBlockHashAndIndex blockHash index => [ArgHash blockHash; ArgUint index]
  | CallGetRawTransactionByBlockNumberAndIndex blockNr index => [ArgString blockNr; ArgUint index]
  | CallGetRawTransactionByBlockHashAndIndex blockHash index => [ArgHash blockHash; ArgUint index]
  | CallGetTransactionCount address blockNr => [ArgAddress address; ArgString blockNr]
  | CallGetTransactionByHash hash => [ArgHash hash]
  | CallGetRawTransactionByHash hash => [ArgHash hash]
  | CallGetTransactionReceipt hash => [ArgHash hash]
  | CallSendTransaction args => [ArgSendTxArgs args]
  | CallSendRawTransaction encodedTx => [ArgBytes encodedTx]
  | CallSign addr data => [ArgAddress addr; ArgBytes data]
  | CallSignTransaction args => [ArgSendTxArgs args]
  | CallPendingTransactions => []
  | CallResend sendArgs gasPrice gasLimit =>
      [ArgSendTxArgs sendArgs; ArgBig gasPrice; ArgBig gasLimit]
  | CallGetRawTransaction hash => [ArgHash hash]
  end.

(** ** What the statements are about *)

(** The one [CallContext] a method makes on the client of its receiver. *)
Definition theCall {W} (i : Invocation) (ctx : context.Context) (h : Heap W)
  : (ResultOf i * option Error) * W :=
  @CallContext W (client (pub h)) (ResultOf i) (holderOf i)
    ctx (zeroResult i) (methodOf i) (paramsOf i) (net h).

(** What a method returns, given how its call ended. *)
Definition returned (i : Invocation) (out : ResultOf i * option Error)
  : ResultOf i * option Error :=
  match snd out with
  | Some e => (if nilOnError i then zeroResult i else fst out, Some e)
  | None => (fst out, None)
  end.

(** Unfolds a method body down to its call. *)
Ltac run_method :=
  unfold GetBlockTransactionCountByNumber, GetBlockTransactionCountByHash,
    GetTransactionByBlockNumberAndIndex, GetTransactionByBlockHashAndIndex,
    GetRawTransactionByBlockNumberAndIndex, GetRawTransactionByBlockHashAndIndex,
    GetTransactionCount, GetTransactionByHash, GetRawTransactionByHash,
    GetTransactionReceipt, SendTransaction, SendRawTransaction, Sign,
    SignTransaction, PendingTransactions, Resend, GetRawTransaction,
    bind, ret, pub_client_CallContext.

(** The requests a transport was given by a method run against [spy c]
    from an empty log. *)
Definition observed {W} (c : Client W) (w : W) (i : Invocation)
    (ctx : context.Context) : list Request :=
  snd (net (snd (invoke i ctx (mkHeap (mkPool (spy c)) (w, []))))).

(** The name of a method in [eth.go]. *)
Definition goName (i : Invocation) : string :=
  match i with
  | CallGetBlockTransactionCountByNumber _ => "GetBlockTransactionCountByNumber"
  | CallGetBlockTransactionCountByHash _ => "GetBlockTransactionCountByHash"
  | CallGetTransactionByBlockNumberAndIndex _ _ => "GetTransactionByBlockNumberAndIndex"
  | CallGetTransactionByBlockHashAndIndex _ _ => "GetTransactionByBlockHashAndIndex"
  | CallGetRawTransactionByBlockNumberAndIndex _ _ => "GetRawTransactionByBlockNumberAndIndex"
  | CallGetRawTransactionByBlockHashAndIndex _ _ => "GetRawTransactionByBlockHashAndIndex"
  | CallGetTransactionCount _ _ => "GetTransactionCount"
  | CallGetTransactionByHash _ => "GetTransactionByHash"
  | CallGetRawTransactionByHash _ => "GetRawTransactionByHash"
  | CallGetTransactionReceipt _ => "GetTransactionReceipt"
  | CallSendTransaction _ => "SendTransaction"
  | CallSendRawTransaction _ => "SendRawTransaction"
  | CallSign _ _ => "Sign"
  | CallSignTransaction _ => "SignTransaction"
  | CallPendingTransactions => "PendingTransactions"
  | CallResend _ _ _ => "Resend"
  | CallGetRawTransaction _ => "GetRawTransaction"
  end.

(** The rule of the specification (section 4.1) for the procedure an
    operation invokes: the operation's own name in the [eth] namespace,
    which is the method's name with its first letter in lower case. *)
Definition procedureName (i : Invocation) : string :=
  match goName i with
  | String c rest => "eth_" +:+ String (lower c) rest
  | EmptyString => "eth_"
  end.

(** The input column of the table of operations of the specification
    (section 4.1), row by row: the inputs of an operation in the order the
    table lists them. [GetRawTransaction] has no row. *)
Definition inputColumn (i : Invocation) : option (list Arg) :=
  match i with
  | CallGetBlockTransactionCountByNumber blockTag => Some [ArgString blockTag]
  | CallGetBlockTransactionCountByHash blockHash => Some [ArgHash blockHash]
  | CallGetTransactionByBlockNumberAndIndex blockTag index =>
      Some [ArgString blockTag; ArgUint index]
  | CallGetTransactionByBlockHashAndIndex hash index =>
      Some [ArgHash hash; ArgUint index]
  | CallGetRawTransactionByBlockNumberAndIndex blockTag index =>
      Some [ArgString blockTag; ArgUint index]
  | CallGetRawTransactionByBlockHashAndIndex hash index =>
      Some [ArgHash hash; ArgUint index]
  | CallGetTransactionCount address blockTag =>
      Some [ArgAddress address; ArgString blockTag]
  | CallGetTransactionByHash hash => Some [ArgHash hash]
  | CallGetRawTransactionByHash hash => Some [ArgHash hash]
  | CallGetTransactionReceipt hash => Some [ArgHash hash]
  | CallSendTransaction submission => Some [ArgSendTxArgs submission]
  | CallSendRawTransaction raw => Some [ArgBytes raw]
  | CallSign address message => Some [ArgAddress address; ArgBytes message]
  | CallSignTransaction submission => Some [ArgSendTxArgs submission]
  | CallPendingTransactions => Some []
  | CallResend original newGasPrice newGasLimit =>
      Some [ArgSendTxArgs original; ArgBig newGasPrice; ArgBig newGasLimit]
  | CallGetRawTransaction _ => None
  end.

(** A node that refuses to sign because the account is locked. *)
Definition lockedAccount (rq : Request) : Reply :=
  Failure (ErrRPC (-32000) "authentication needed: password or unlock").

(** The text of the hash whose 32 bytes are all [0xaa]. *)
Definition aaHash : string :=
  "0xaaaaaaaaaaaaaaaaaaaaaaaaaaaaaaaaaaaaaaaaaaaaaaaaaaaaaaaaaaaaaaaa".

(** A node whose pending transaction has no block yet and says so with a
    null block hash. *)
Definition nullBlockHashPending (rq : Request) : Reply :=
  Result (JArray [JObject [("hash", JString aaHash); ("blockHash", JNull)]]).

(** A transaction as a node writes it: one member per field, in the order
    of the declaration. *)
Definition wireTransaction
    (blockHash blockNumber from gas gasPrice hash input nonce to
     transactionIndex value v r s : json) : json :=
  JObject
    [ ("blockHash", blockHash); ("blockNumber", blockNumber); ("from", from);
      ("gas", gas); ("gasPrice", gasPrice); ("hash", hash); ("input", input);
      ("nonce", nonce); ("to", to); ("transactionIndex", transactionIndex);
      ("value", value); ("v", v); ("r", r); ("s", s) ].

(** Decides which field a member with a literal name goes to. *)
Ltac eval_names H :=
  repeat match type of H with
         | context [names ?k ?t] =>
             let b := eval vm_compute in (names k t) in
             change (names k t) with b in H
         end.

(** One turn of [decodeMembers] in [H]: the member's field is decoded and
    the case where that stops the decoding is closed. *)
Ltac decode_member H :=
  cbn [decodeMembers] in H;
  unfold RPCTransaction_store in H at 1;
  eval_names H; cbv iota in H;
  match type of H with
  | context [@unmarshal ?T ?U ?j ?f] =>
      let x := fresh "x" in
      let saved := fresh "saved" in
      let e := fresh "e" in
      let Hf := fresh "Hfield" in
      destruct (@unmarshal T U j f) as [x [saved|e]] eqn:Hf;
      [|discriminate H]
  end.

(** A pending transaction as a node writes it when it marks the missing
    block with nulls. *)
Definition pendingWire : json :=
  wireTransaction JNull JNull
    (JString "0x00000000000000000000000000000000000000aa")
    (JString "0x5208") (JString "0x1") (JString aaHash) (JString "0x")
    (JString "0x0") JNull (JString "0x0") (JString "0x0")
    (JString "0x1b") (JString "0x1") (JString "0x1").

(** The same transaction with the block hash written as zeros. *)
Definition pendingWireZeroHash : json :=
  wireTransaction
    (JString "0x0000000000000000000000000000000000000000000000000000000000000000")
    JNull
    (JString "0x00000000000000000000000000000000000000aa")
    (JString "0x5208") (JString "0x1") (JString aaHash) (JString "0x")
    (JString "0x0") JNull (JString "0x0") (JString "0x0")
    (JString "0x1b") (JString "0x1") (JString "0x1").

(** ** More of the data model: what the records look like on the wire *)

(** The value of a string of hexadecimal digits read after [acc], most
    significant digit first: what [decodeDigits] computes on the text of
    the digits. *)
Fixpoint digitsValue (d : Hexadecimal.uint) (acc : N) : N :=
  match d with
  | Hexadecimal.Nil => acc
  | Hexadecimal.D0 l => digitsValue l (16 * acc + 0)
  | Hexadecimal.D1 l => digitsValue l (16 * acc + 1)
  | Hexadecimal.D2 l => digitsValue l (16 * acc + 2)
  | Hexadecimal.D3 l => digitsValue l (16 * acc + 3)
  | Hexadecimal.D4 l => digitsValue l (16 * acc + 4)
  | Hexadecimal.D5 l => digitsValue l (16 * acc + 5)
  | Hexadecimal.D6 l => digitsValue l (16 * acc + 6)
  | Hexadecimal.D7 l => digitsValue l (16 * acc + 7)
  | Hexadecimal.D8 l => digitsValue l (16 * acc + 8)
  | Hexadecimal.D9 l => digitsValue l (16 * acc + 9)
  | Hexadecimal.Da l => digitsValue l (16 * acc + 10)
  | Hexadecimal.Db l => digitsValue l (16 * acc + 11)
  | Hexadecimal.Dc l => digitsValue l (16 * acc + 12)
  | Hexadecimal.Dd l => digitsValue l (16 * acc + 13)
  | Hexadecimal.De l => digitsValue l (16 * acc + 14)
  | Hexadecimal.Df l => digitsValue l (16 * acc + 15)
  end%N.

(** The digits [EncodeUint64] and [EncodeBig] write after [0x]. *)
Definition hexText (n : N) : string := NilZero.string_of_uint (N.to_hex_uint n).

(** What a byte string is after it was written and read back: the same
    bytes in a slice that is not nil. *)
Definition present (b : Bytes) : Bytes := mkBytes (Elems (elements (bytes_val b))).

(** The numbers [hexutil.Big] reads back: at most 64 digits, no sign. *)
Definition inBig256 (z : Big) : Prop := (0 <= z < 2 ^ 256)%Z.

Definition ptrInBig256 (p : option Big) : Prop :=
  match p with
  | Some z => inBig256 z
  | None => True
  end.

(** A transaction whose numbers can be read back. [hexutil.Uint64] and
    [hexutil.Uint] are 64-bit in Go; the bounds say so for the [N] that
    stands for them. *)
Definition RPCTransaction_encodable (tx : RPCTransaction.t) : Prop :=
  ptrInBig256 (RPCTransaction.BlockNumber tx) /\
  ptrInBig256 (RPCTransaction.Gas tx) /\
  ptrInBig256 (RPCTransaction.GasPrice tx) /\
  (uint64_val (RPCTransaction.Nonce tx) < 2 ^ 64)%N /\
  (uint_val (RPCTransaction.TransactionIndex tx) < 2 ^ 64)%N /\
  ptrInBig256 (RPCTransaction.Value tx) /\
  ptrInBig256 (RPCTransaction.V tx) /\
  ptrInBig256 (RPCTransaction.R tx) /\
  ptrInBig256 (RPCTransaction.S tx).

(** A transaction as it comes back: only a nil [Input] changes, to the
    empty slice. *)
Definition RPCTransaction_decoded (tx : RPCTransaction.t) : RPCTransaction.t :=
  let 'RPCTransaction.mk bh bn fr g gp h inp n t ti v sv sr ss := tx in
  RPCTransaction.mk bh bn fr g gp h (present inp) n t ti v sv sr ss.

(** The [json] tags of [RPCTransaction], in the order of its fields. *)
Definition RPCTransaction_tags : list string :=
  ["blockHash"; "blockNumber"; "from"; "gas"; "gasPrice"; "hash"; "input";
   "nonce"; "to"; "transactionIndex"; "value"; "v"; "r"; "s"].

(** A name made of ASCII characters only. For such names [names] is the
    comparison [encoding/json] makes; beyond ASCII it also folds a few
    letters that [lower] leaves alone. *)
Fixpoint isASCII (s : string) : bool :=
  match s with
  | EmptyString => true
  | String c rest => (N_of_ascii c <? 128)%N && isASCII rest
  end.

(** Whether a member name answers to one of the tags. *)
Definition tagged (tags : list string) (key : string) : bool :=
  existsb (names key) tags.

(** The field of [SendTxArgs] a member goes to, by its [json] tag. *)
Definition SendTxArgs_store (key : string) (j : json) (args : SendTxArgs.t)
  : SendTxArgs.t * Status :=
  let 'SendTxArgs.mk fr t g gp v d n := args in
  if names key "from" then
    let (x, st) := unmarshal j fr in (SendTxArgs.mk x t g gp v d n, st)
  else if names key "to" then
    let (x, st) := unmarshal j t in (SendTxArgs.mk fr x g gp v d n, st)
  else if names key "gas" then
    let (x, st) := unmarshal j g in (SendTxArgs.mk fr t x gp v d n, st)
  else if names key "gasPrice" then
    let (x, st) := unmarshal j gp in (SendTxArgs.mk fr t g x v d n, st)
  else if names key "value" then
    let (x, st) := unmarshal j v in (SendTxArgs.mk fr t g gp x d n, st)
  else if names key "data" then
    let (x, st) := unmarshal j d in (SendTxArgs.mk fr t g gp v x n, st)
  else if names key "nonce" then
    let (x, st) := unmarshal j n in (SendTxArgs.mk fr t g gp v d x, st)
  else (args, Done None).

#[global] Instance name_SendTxArgs : GoType SendTxArgs.t := "rpc.SendTxArgs".

#[global] Instance unmarshal_SendTxArgs : Unmarshal SendTxArgs.t :=
  unmarshalStruct (typeName SendTxArgs.t) SendTxArgs_store.

(** [SendTxArgs] is written field by field under its tags; none of its
    fields is a pointer, so none is ever written as null. *)
#[global] Instance marshal_SendTxArgs : Marshal SendTxArgs.t :=
  fun args =>
    JObject
      [ ("from", marshal (SendTxArgs.From args));
        ("to", marshal (SendTxArgs.To args));
        ("gas", marshal (SendTxArgs.Gas args));
        ("gasPrice", marshal (SendTxArgs.GasPrice args));
        ("value", marshal (SendTxArgs.Value args));
        ("data", marshal (SendTxArgs.Data args));
        ("nonce", marshal (SendTxArgs.Nonce args)) ].

Definition SendTxArgs_encodable (args : SendTxArgs.t) : Prop :=
  inBig256 (SendTxArgs.Gas args) /\
  inBig256 (SendTxArgs.GasPrice args) /\
  inBig256 (SendTxArgs.Value args) /\
  (uint64_val (SendTxArgs.Nonce args) < 2 ^ 64)%N.

Definition SendTxArgs_decoded (args : SendTxArgs.t) : SendTxArgs.t :=
  let 'SendTxArgs.mk fr t g gp v d n := args in
  SendTxArgs.mk fr t g gp v (present d) n.

(** The methods whose holder is a pointer, a slice or a map: the holders
    that JSON null sets to nil. *)
Definition nullable (i : Invocation) : bool :=
  match i with
  | CallGetBlockTransactionCountByNumber _
  | CallGetBlockTransactionCountByHash _
  | CallGetTransactionByBlockNumberAndIndex _ _
  | CallGetTransactionByBlockHashAndIndex _ _
  | CallGetTransactionCount _ _
  | CallGetTransactionByHash _
  | CallGetTransactionReceipt _
  | CallSignTransaction _
  | CallPendingTransactions => true
  | _ => false
  end.

(** A caller that runs one method and then another. *)
Definition inSequence {W A B} (first : Method W A) (second : Method W B)
  : Method W (A * B) :=
  let* a := first in
  let* b := second in
  ret (a, b).

(** A mined transfer and a submission, for the examples. *)
Definition sampleTransaction : RPCTransaction.t :=
  RPCTransaction.mk (vreplicate 32 x11) (Some 4660%Z) (vreplicate 20 x22)
    (Some 21000%Z) (Some 1000000000%Z) (vreplicate 32 xaa) (mkBytes (Elems []))
    (mkUint64 7) (Some (vreplicate 20 x33)) (mkUint 2) (Some 0%Z)
    (Some 27%Z) (Some 1%Z) (Some 1%Z).

Definition sampleCreation : RPCTransaction.t :=
  RPCTransaction.mk zero None (vreplicate 20 x22)
    (Some 53000%Z) (Some 1%Z) (vreplicate 32 xbb) (mkBytes (Elems [x60; x80]))
    (mkUint64 8) None (mkUint 0) (Some 0%Z) (Some 28%Z) (Some 2%Z) (Some 3%Z).

Definition sampleArgs : SendTxArgs.t :=
  SendTxArgs.mk (vreplicate 20 x22) (vreplicate 20 x33) 21000%Z 1000000000%Z
    1%Z (mkBytes (Elems [])) (mkUint64 7).

(** * Properties *)

(** ** One call, then the holder or nil *)

(** Every method is its one call followed by the choice of what to hand
    back; the receiver is left as it was. *)
Lemma facade_step {W} (i : Invocation) (ctx : context.Context) (h : Heap W) :
  invoke i ctx h =
    (returned i (fst (theCall i ctx h)), mkHeap (pub h) (snd (theCall i ctx h))).
Proof.
  unfold theCall, returned.
  destruct i; cbn [invoke ResultOf holderOf zeroResult methodOf paramsOf nilOnError];
    run_method;
    match goal with
    | |- context [@CallContext ?W ?c ?T ?U ?x ?r ?m ?a ?w] =>
        destruct (@CallContext W c T U x r m a w) as [[r' [e|]] w']
    end; reflexivity.
Qed.

(** A method run against [spy c] makes the call [c] would be given, and
    the spy has one more request. *)
Lemma spy_invoke {W} (c : Client W) (i : Invocation) (ctx : context.Context)
    (w : W) (log : list Request) :
  invoke i ctx (mkHeap (mkPool (spy c)) (w, log)) =
    let out := @CallContext W c (ResultOf i) (holderOf i)
                 ctx (zeroResult i) (methodOf i) (paramsOf i) w in
    (returned i (fst out),
     mkHeap (mkPool (spy c))
       (snd out, log ++ [mkRequest ctx (methodOf i) (paramsOf i)])).
Proof.
  rewrite facade_step. unfold theCall. cbn.
  destruct (CallContext c (ResultOf i) ctx (zeroResult i) (methodOf i) (paramsOf i) w)
    as [out w'].
  reflexivity.
Qed.

(** A method run against [stub server]: the request goes to the server,
    a failure comes back as it is, a result is decoded into the holder. *)
Lemma stub_invoke (server : Request -> Reply) (i : Invocation)
    (ctx : context.Context) (log : list Request) :
  invoke i ctx (mkHeap (mkPool (stub server)) log) =
    let rq := mkRequest ctx (methodOf i) (paramsOf i) in
    (returned i
       match server rq with
       | Failure e => (zeroResult i, Some e)
       | Result j =>
           (fst (holderOf i j (zeroResult i)),
            status_error (snd (holderOf i j (zeroResult i))))
       end,
     mkHeap (mkPool (stub server)) (log ++ [rq])).
Proof.
  rewrite facade_step. unfold theCall. cbn.
  destruct (server _) as [e|j]; [reflexivity|].
  unfold unmarshal. destruct (holderOf i j (zeroResult i)); reflexivity.
Qed.

(** ** Hexadecimal text of byte strings *)

Lemma byte_digits (b : byte) :
  hexutil.decodeNibble (hexutil.hexdigit (Byte.to_N b / 16)) = Some (Byte.to_N b / 16)%N /\
  hexutil.decodeNibble (hexutil.hexdigit (Byte.to_N b mod 16)) = Some (Byte.to_N b mod 16)%N /\
  Byte.of_N (16 * (Byte.to_N b / 16) + Byte.to_N b mod 16) = Some b.
Proof. destruct b; vm_compute; auto. Qed.

Lemma decodeBytes_encodeBytes (bs : list byte) :
  hexutil.decodeBytes (hexutil.encodeBytes bs) = Some bs.
Proof.
  induction bs as [|b bs IH]; [reflexivity|].
  destruct (byte_digits b) as (Hhi & Hlo & Hb).
  cbn [hexutil.encodeBytes hexutil.decodeBytes].
  rewrite Hhi, Hlo, IH, Hb. reflexivity.
Qed.

Lemma length_encodeBytes (bs : list byte) :
  String.length (hexutil.encodeBytes bs) = 2 * length bs.
Proof.
  induction bs as [|b bs IH]; [reflexivity|].
  cbn [hexutil.encodeBytes String.length length]. rewrite IH. lia.
Qed.

Lemma checkText_Encode (bs : list byte) :
  hexutil.checkText (hexutil.Encode bs) = inr (hexutil.encodeBytes bs).
Proof.
  unfold hexutil.checkText, hexutil.Encode.
  change ("0x" +:+ hexutil.encodeBytes bs)
    with (String "0" (String "x" (hexutil.encodeBytes bs))).
  cbn [String.length Nat.eqb hexutil.has0xPrefix hexutil.drop2].
  change (Ascii.eqb "x" "x" || Ascii.eqb "x" "X") with true. cbv iota.
  rewrite length_encodeBytes.
  replace (2 * length bs) with (length bs * 2) by lia.
  rewrite Nat.even_mul, Bool.orb_true_r. reflexivity.
Qed.

Lemma toArray_vec {n} (v : vec byte n) : toArray n (vec_to_list v) = Some v.
Proof.
  induction v as [|b n v IH]; [reflexivity|].
  cbn. rewrite IH. reflexivity.
Qed.

(** A fixed-size array written as text is read back as the same array. *)
Lemma unmarshalFixed_marshal (typ : string) {n} (v old : vec byte n) :
  unmarshalFixed typ n (marshal v) old = (v, Done None).
Proof.
  unfold unmarshalFixed, marshal, marshal_fixed, fromText, hexutil.UnmarshalFixedText.
  rewrite checkText_Encode, length_encodeBytes, length_vec_to_list.
  replace (2 * n) with (n * 2) by lia.
  rewrite Nat.div_mul by lia. rewrite Nat.eqb_refl. cbn [negb].
  rewrite decodeBytes_encodeBytes, toArray_vec. reflexivity.
Qed.

(** What [hexutil] reads: digits in either case after [0x], no leading
    zero in a number, an even number of digits in a byte string. *)
Example Big_of_text :
  map hexutil.Big_UnmarshalText ["0x0"; "0x1f"; "0x1F"; "0x01"; "1f"; "0x"; "0xg"]
  = [inr 0%Z; inr 31%Z; inr 31%Z; inl ErrLeadingZero; inl ErrMissingPrefix;
     inl ErrEmptyNumber; inl ErrSyntax].
Proof. reflexivity. Qed.

Example Bytes_of_text :
  map hexutil.Bytes_UnmarshalText ["0x"; "0xf86b"; "0xf8b"; "f86b"]
  = [inr []; inr [xf8; x6b]; inl ErrOddLength; inl ErrMissingPrefix].
Proof. reflexivity. Qed.

Example text_of_numbers :
  (hexutil.EncodeBig 0, hexutil.EncodeBig 21000, hexutil.EncodeUint64 255)
  = ("0x0", "0x5208", "0xff").
Proof. reflexivity. Qed.

Lemma unmarshal_Hash_Encode (hash old : common.Hash) :
  unmarshal_Hash (JString (hexutil.Encode (vec_to_list hash))) old = (hash, Done None).
Proof. exact (unmarshalFixed_marshal "common.Hash" hash old). Qed.

(** ** Requests *)

Lemma observed_request {W} (c : Client W) (w : W) (i : Invocation)
    (ctx : context.Context) :
  observed c w i ctx = [mkRequest ctx (methodOf i) (paramsOf i)].
Proof. unfold observed. rewrite spy_invoke. reflexivity. Qed.

(** C1. [GetTransactionByBlockHashAndIndex] does not invoke
    [eth_getTransactionByBlockHashAndIndex]: whatever the transport, the
    one request it makes names [eth_getTransactionByBlockNumberAndIndex],
    the procedure of its by-number sibling, with the block hash and the
    index as arguments. *)
Theorem GetTransactionByBlockHashAndIndex_invokes_by_number
    {W} (c : Client W) (w : W) (ctx : context.Context)
    (blockHash : common.Hash) (index : Uint) :
  observed c w (CallGetTransactionByBlockHashAndIndex blockHash index) ctx =
    [mkRequest ctx "eth_getTransactionByBlockNumberAndIndex"
       [ArgHash blockHash; ArgUint index]] /\
  procedureName (CallGetTransactionByBlockHashAndIndex blockHash index)
    = "eth_getTransactionByBlockHashAndIndex" /\
  map req_method
    (observed c w (CallGetTransactionByBlockHashAndIndex blockHash index) ctx)
    <> ["eth_getTransactionByBlockHashAndIndex"] /\
  map req_method
    (observed c w (CallGetRawTransactionByBlockHashAndIndex blockHash index) ctx)
    = ["eth_getRawTransactionByBlockHashAndIndex"].
Proof.
  rewrite !observed_request. cbn. repeat split. discriminate.
Qed.

(** X2. Every method of the interface other than
    [GetTransactionByBlockHashAndIndex] invokes the procedure that bears
    its own name: [eth_] and the method's name with a lower-case first
    letter. *)
Lemma declared_methods_invoke_their_own_procedure
    {W} (c : Client W) (w : W) (i : Invocation) (ctx : context.Context) :
  declared i = true ->
  (forall blockHash index, i <> CallGetTransactionByBlockHashAndIndex blockHash index) ->
  map req_method (observed c w i ctx) = [procedureName i].
Proof.
  intros Hdecl Hother. rewrite observed_request. cbn [map req_method].
  destruct i; try reflexivity; try discriminate Hdecl.
  destruct (Hother blockHash index eq_refl).
Qed.

(** C5. For every operation of the table, and so for each one that takes
    several arguments (block number and index, block hash and index,
    address and block tag, address and message, submission with gas price
    and gas limit), the transport is given one request whose arguments are
    the inputs of the table's row, in that order. *)
Theorem arguments_in_table_order
    {W} (c : Client W) (w : W) (i : Invocation) (ctx : context.Context)
    (inputs : list Arg) :
  inputColumn i = Some inputs ->
  map req_params (observed c w i ctx) = [inputs].
Proof.
  intros Hrow. rewrite observed_request. cbn.
  destruct i; cbn in *; congruence.
Qed.

Lemma arguments_in_table_order_witness :
  map req_params
    (observed (stub (fun _ => Failure ErrNoResult)) []
       (CallResend (SendTxArgs.mk zero zero 21000 1 0 zero zero) 2 30000)
       context.Background)
  = [[ArgSendTxArgs (SendTxArgs.mk zero zero 21000 1 0 zero zero);
      ArgBig 2; ArgBig 30000]].
Proof.
  apply (arguments_in_table_order (stub (fun _ => Failure ErrNoResult)) []
           (CallResend (SendTxArgs.mk zero zero 21000 1 0 zero zero) 2 30000)).
  reflexivity.
Defined.

(** ** Frame *)

(** C8. Every method makes exactly one call of the transport's call
    primitive: a transport that keeps the requests it is given has one
    more after the method than before, the world behind the transport is
    the one that call left, what the method returns is decided by that
    call alone, and the receiver, whose only field is the client, is the
    same after the method as before. *)
Theorem one_call_and_no_local_state
    {W} (c : Client W) (i : Invocation) (ctx : context.Context)
    (w : W) (log : list Request) (h : Heap W) :
  let out := @CallContext W c (ResultOf i) (holderOf i)
               ctx (zeroResult i) (methodOf i) (paramsOf i) w in
  let run := invoke i ctx (mkHeap (mkPool (spy c)) (w, log)) in
  snd (net (snd run)) = log ++ [mkRequest ctx (methodOf i) (paramsOf i)] /\
  length (snd (net (snd run))) = S (length log) /\
  fst (net (snd run)) = snd out /\
  fst run = returned i (fst out) /\
  pub (snd run) = mkPool (spy c) /\
  pub (snd (invoke i ctx h)) = pub h /\
  client (pub (snd (invoke i ctx h))) = client (pub h).
Proof.
  cbn zeta. rewrite spy_invoke, facade_step. cbn.
  rewrite length_app. cbn. repeat split; lia.
Qed.

(** ** The two methods for raw transactions by hash *)

(** C9. [GetRawTransaction], which the interface does not declare, and
    [GetRawTransactionByHash] are the same function of the context, the
    hash and the heap: with every transport they return the same bytes and
    error and leave the same heap, and the request each makes is
    [eth_getRawTransactionByHash] with the hash as its one argument. *)
Theorem GetRawTransaction_is_GetRawTransactionByHash
    {W} (c : Client W) (w : W) (ctx : context.Context) (hash : common.Hash)
    (h : Heap W) :
  GetRawTransaction ctx hash h = GetRawTransactionByHash ctx hash h /\
  declared (CallGetRawTransaction hash) = false /\
  observed c w (CallGetRawTransaction hash) ctx =
    [mkRequest ctx "eth_getRawTransactionByHash" [ArgHash hash]] /\
  observed c w (CallGetRawTransactionByHash hash) ctx =
    [mkRequest ctx "eth_getRawTransactionByHash" [ArgHash hash]].
Proof.
  rewrite !observed_request. repeat split.
Qed.

(** ** Errors *)

(** C10. When a method returns an error: the eight methods that end in
    [return nil, err] (the two block transaction counts, the two
    transactions by block and index, [GetTransactionCount],
    [GetTransactionByHash], [Sign] and [SignTransaction]) return the nil
    value of their result type, and every other method, so each one that
    returns a hash or a map, returns its holder as the call left it. *)
Theorem nil_or_holder_next_to_error
    {W} (i : Invocation) (ctx : context.Context) (h : Heap W) (e : Error) :
  snd (fst (invoke i ctx h)) = Some e ->
  (nilOnError i = true -> fst (fst (invoke i ctx h)) = zeroResult i) /\
  (nilOnError i = false ->
   fst (fst (invoke i ctx h)) = fst (fst (theCall i ctx h))).
Proof.
  rewrite facade_step. cbn [fst snd]. unfold returned.
  destruct (snd (fst (theCall i ctx h))) as [e'|]; cbn [fst snd]; [|discriminate].
  intros _. split; intros ->; reflexivity.
Qed.

Lemma nil_or_holder_next_to_error_witness :
  fst (fst (Sign context.Background zero (mkBytes (Elems [x68; x69]))
         (mkHeap (mkPool (stub lockedAccount)) []))) = mkBytes Nil.
Proof.
  refine (proj1 (nil_or_holder_next_to_error
           (CallSign zero (mkBytes (Elems [x68; x69]))) context.Background
           (mkHeap (mkPool (stub lockedAccount)) [])
           (ErrRPC (-32000) "authentication needed: password or unlock") _) _);
    reflexivity.
Defined.

(** C3, as stated, fails: the methods that end in [return r, err] hand back
    whatever the call left in the holder. [PendingTransactions], given a
    reply whose one transaction cannot be decoded, returns the decode error
    together with a slice that holds the half-decoded transaction. *)
Lemma PendingTransactions_partial_result :
  let out := fst (PendingTransactions context.Background
                    (mkHeap (mkPool (stub nullBlockHashPending)) [])) in
  snd out = Some (ErrUnmarshalType NonString "common.Hash") /\
  fst out =
    Elems [Some (RPCTransaction.mk zero None zero None None (vreplicate 32 xaa)
                   zero zero None zero None None None None)] /\
  fst out <> zeroResult CallPendingTransactions.
Proof. vm_compute. repeat split. discriminate. Qed.

(** C3, amended. Whatever the transport and whatever failure its call
    reports, a method returns that very error, after that one call and no
    other; next to it the eight methods with [return nil, err] return nil
    and the others return the holder as the call left it, so the zero value
    of their type when the call did not write to it. *)
Theorem failure_returned_unchanged
    {W} (c : Client W) (i : Invocation) (ctx : context.Context)
    (w w' : W) (log : list Request) (r : ResultOf i) (e : Error) :
  @CallContext W c (ResultOf i) (holderOf i)
     ctx (zeroResult i) (methodOf i) (paramsOf i) w = ((r, Some e), w') ->
  invoke i ctx (mkHeap (mkPool (spy c)) (w, log)) =
    ((if nilOnError i then zeroResult i else r, Some e),
     mkHeap (mkPool (spy c))
       (w', log ++ [mkRequest ctx (methodOf i) (paramsOf i)])) /\
  (r = zeroResult i ->
   fst (invoke i ctx (mkHeap (mkPool (spy c)) (w, log))) = (zeroResult i, Some e)).
Proof.
  intros Hcall. rewrite spy_invoke, Hcall. cbn. split; [reflexivity|].
  intros ->. destruct (nilOnError i); reflexivity.
Qed.

Lemma failure_returned_unchanged_witness :
  fst (invoke (CallSign zero (mkBytes (Elems [x68; x69]))) context.Background
         (mkHeap (mkPool (spy (stub lockedAccount))) ([], []))) =
    (mkBytes Nil, Some (ErrRPC (-32000) "authentication needed: password or unlock")).
Proof.
  refine (proj2 (failure_returned_unchanged (stub lockedAccount)
           (CallSign zero (mkBytes (Elems [x68; x69]))) context.Background
           [] [mkRequest context.Background "eth_sign"
                 [ArgAddress zero; ArgBytes (mkBytes (Elems [x68; x69]))]]
           [] (mkBytes Nil)
           (ErrRPC (-32000) "authentication needed: password or unlock") _) _);
    reflexivity.
Defined.

(** A failure the transport reports before any decoding (the connection,
    a deadline, the error object of a response) reaches the caller with
    the zero value of the result type, for every method. *)
Lemma stub_failure (server : Request -> Reply) (i : Invocation)
    (ctx : context.Context) (log : list Request) (e : Error) :
  server (mkRequest ctx (methodOf i) (paramsOf i)) = Failure e ->
  fst (invoke i ctx (mkHeap (mkPool (stub server)) log)) = (zeroResult i, Some e).
Proof.
  intros Hsrv. rewrite stub_invoke. cbn. rewrite Hsrv. unfold returned. cbn.
  destruct (nilOnError i); reflexivity.
Qed.

(** X4. When the call reports no error, a method returns the holder
    exactly as the call filled it, and a nil error. *)
Lemma success_returns_holder
    {W} (i : Invocation) (ctx : context.Context) (h : Heap W) :
  snd (fst (theCall i ctx h)) = None ->
  fst (invoke i ctx h) = (fst (fst (theCall i ctx h)), None).
Proof.
  intros Hok. rewrite facade_step. unfold returned. cbn. rewrite Hok. reflexivity.
Qed.




(** ** Scenarios against a canned server *)

(** C4. When the reply to a block transaction count by number is JSON
    null (as for the ["pending"] tag), the method returns the nil count and
    no error: not a count of zero, and not a failure. *)
Theorem null_count_is_no_count
    (server : Request -> Reply) (ctx : context.Context) (blockNr : string)
    (log : list Request) :
  server (mkRequest ctx "eth_getBlockTransactionCountByNumber" [ArgString blockNr])
    = Result JNull ->
  fst (GetBlockTransactionCountByNumber ctx blockNr
         (mkHeap (mkPool (stub server)) log)) = (None, None) /\
  fst (fst (GetBlockTransactionCountByNumber ctx blockNr
              (mkHeap (mkPool (stub server)) log))) <> Some (mkUint 0).
Proof.
  intros Hsrv.
  change (GetBlockTransactionCountByNumber ctx blockNr)
    with (@invoke (list Request) (CallGetBlockTransactionCountByNumber blockNr) ctx).
  rewrite stub_invoke. cbn. rewrite Hsrv. cbn. split; [reflexivity|discriminate].
Qed.

Lemma null_count_is_no_count_witness :
  fst (GetBlockTransactionCountByNumber context.Background "pending"
         (mkHeap (mkPool (stub (fun _ => Result JNull))) [])) = (None, None).
Proof.
  refine (proj1 (null_count_is_no_count (fun _ => Result JNull)
                   context.Background "pending" [] _)).
  reflexivity.
Defined.

(** The count by hash answers null the same way. *)
Lemma null_count_by_hash
    (server : Request -> Reply) (ctx : context.Context) (blockHash : common.Hash)
    (log : list Request) :
  server (mkRequest ctx "eth_getBlockTransactionCountByHash" [ArgHash blockHash])
    = Result JNull ->
  fst (GetBlockTransactionCountByHash ctx blockHash
         (mkHeap (mkPool (stub server)) log)) = (None, None).
Proof.
  intros Hsrv.
  change (GetBlockTransactionCountByHash ctx blockHash)
    with (@invoke (list Request) (CallGetBlockTransactionCountByHash blockHash) ctx).
  rewrite stub_invoke. cbn. rewrite Hsrv. reflexivity.
Qed.

(** A count of zero is not the nil count. *)
Example zero_count_is_a_count :
  fst (GetBlockTransactionCountByNumber context.Background "latest"
         (mkHeap (mkPool (stub (fun _ => Result (JString "0x0")))) []))
  = (Some (mkUint 0), None).
Proof. reflexivity. Qed.

(** C6. When the reply to the pending transactions request is the empty
    array, [PendingTransactions] returns an empty slice and no error; the
    slice is not nil. *)
Theorem no_pending_transactions_is_empty
    (server : Request -> Reply) (ctx : context.Context) (log : list Request) :
  server (mkRequest ctx "eth_pendingTransactions" []) = Result (JArray []) ->
  fst (PendingTransactions ctx (mkHeap (mkPool (stub server)) log))
    = (Elems [], None) /\
  fst (fst (PendingTransactions ctx (mkHeap (mkPool (stub server)) log))) <> Nil.
Proof.
  intros Hsrv.
  change (PendingTransactions ctx)
    with (@invoke (list Request) CallPendingTransactions ctx).
  rewrite stub_invoke. cbn. rewrite Hsrv. cbn. split; [reflexivity|discriminate].
Qed.

Lemma no_pending_transactions_is_empty_witness :
  fst (PendingTransactions context.Background
         (mkHeap (mkPool (stub (fun _ => Result (JArray [])))) []))
    = (Elems [], None).
Proof.
  refine (proj1 (no_pending_transactions_is_empty (fun _ => Result (JArray []))
                   context.Background [] _)).
  reflexivity.
Defined.

(** C7. When the reply to the submission of a raw transaction is a
    32-byte hash, [SendRawTransaction] returns that hash, byte for byte,
    and no error. *)
Theorem SendRawTransaction_returns_the_hash
    (server : Request -> Reply) (ctx : context.Context) (encodedTx : Bytes)
    (log : list Request) (hash : common.Hash) :
  server (mkRequest ctx "eth_sendRawTransaction" [ArgBytes encodedTx])
    = Result (JString (hexutil.Encode (vec_to_list hash))) ->
  fst (SendRawTransaction ctx encodedTx (mkHeap (mkPool (stub server)) log))
    = (hash, None).
Proof.
  intros Hsrv.
  change (SendRawTransaction ctx encodedTx)
    with (@invoke (list Request) (CallSendRawTransaction encodedTx) ctx).
  rewrite stub_invoke. cbn. rewrite Hsrv.
  rewrite unmarshal_Hash_Encode. reflexivity.
Qed.

Lemma SendRawTransaction_returns_the_hash_witness :
  fst (SendRawTransaction context.Background (mkBytes (Elems [xf8; x6b]))
         (mkHeap (mkPool (stub (fun _ => Result (JString aaHash)))) []))
    = (vreplicate 32 xaa, None).
Proof.
  apply (SendRawTransaction_returns_the_hash (fun _ => Result (JString aaHash))
           context.Background (mkBytes (Elems [xf8; x6b])) [] (vreplicate 32 xaa)).
  reflexivity.
Defined.

(** ** Null and the fields of a transaction *)

Lemma member_blockHash (tx : RPCTransaction.t) :
  member "blockHash" (marshal tx) = Some (marshal (RPCTransaction.BlockHash tx)).
Proof. reflexivity. Qed.

Lemma member_blockNumber (tx : RPCTransaction.t) :
  member "blockNumber" (marshal tx) = Some (marshal (RPCTransaction.BlockNumber tx)).
Proof. reflexivity. Qed.

Lemma member_to (tx : RPCTransaction.t) :
  member "to" (marshal tx) = Some (marshal (RPCTransaction.To tx)).
Proof. reflexivity. Qed.

(** A nil pointer is the only pointer written as null. *)
Lemma marshal_ptr_null {T} `{Marshal T} (p : option T) :
  (forall v : T, marshal v <> JNull) ->
  marshal p = JNull <-> p = None.
Proof.
  intros Hv. destruct p as [v|]; cbn; split; try reflexivity; try discriminate.
  intros Hnull. destruct (Hv v Hnull).
Qed.

(** Null is the only value read as a nil pointer: any other value
    allocates the pointee, whatever its decoder then makes of it. *)
Lemma unmarshal_ptr_null {T} `{Unmarshal T} `{Zero T}
    (j : json) (old p : option T) (saved : option Error) :
  unmarshal j old = (p, Done saved) ->
  j = JNull <-> p = None.
Proof.
  unfold unmarshal at 1, unmarshal_ptr.
  destruct j; try (destruct (unmarshal _ _)); intros [= <- _];
    split; try reflexivity; discriminate.
Qed.

(** The decoder of [common.Hash] stops at null. *)
Lemma unmarshal_Hash_null (old x : common.Hash) (saved : option Error) :
  unmarshal JNull old <> (x, Done saved).
Proof. discriminate. Qed.

(** Decoding a transaction as a node writes it, when it succeeds, stores
    every member in its field. *)
Lemma unmarshal_wireTransaction
    (bh bn fr g gp h inp n t ti v sv sr ss : json) (old tx : RPCTransaction.t)
    (saved : option Error) :
  unmarshal (wireTransaction bh bn fr g gp h inp n t ti v sv sr ss) old
    = (tx, Done saved) ->
  (exists s1, unmarshal bh (RPCTransaction.BlockHash old)
              = (RPCTransaction.BlockHash tx, Done s1)) /\
  (exists s2, unmarshal bn (RPCTransaction.BlockNumber old)
              = (RPCTransaction.BlockNumber tx, Done s2)) /\
  (exists s3, unmarshal t (RPCTransaction.To old)
              = (RPCTransaction.To tx, Done s3)).
Proof.
  unfold unmarshal at 1, unmarshal_RPCTransaction, unmarshalStruct, wireTransaction.
  destruct old. intros Hdec.
  do 14 decode_member Hdec.
  cbn [decodeMembers] in Hdec. injection Hdec as <- _. cbn.
  repeat split; eexists; eassumption.
Qed.

(** C2, as stated, fails for the block hash: [BlockHash] is a
    [common.Hash], an array of 32 bytes and not a pointer, so a null block
    hash is not decoded at all, and no record is written back with a null
    block hash. *)
Lemma null_block_hash_does_not_round_trip :
  snd (unmarshal pendingWire (zero : RPCTransaction.t))
    = Abort (ErrUnmarshalType NonString "common.Hash") /\
  ~ (exists tx : RPCTransaction.t,
       unmarshal pendingWire zero = (tx, Done None) /\
       member "blockHash" (marshal tx) = Some JNull).
Proof.
  split; [reflexivity|].
  intros (tx & Hdec & _). vm_compute in Hdec. discriminate.
Qed.

(** Through the facade, the null block hash is an error of
    [GetTransactionByHash], which returns no transaction. *)
Example GetTransactionByHash_null_block_hash :
  fst (GetTransactionByHash context.Background (vreplicate 32 xaa)
         (mkHeap (mkPool (stub (fun _ => Result pendingWire))) []))
  = (None, Some (ErrUnmarshalType NonString "common.Hash")).
Proof. reflexivity. Qed.

(** C2, amended. For the pointer fields of a decoded [RPCTransaction] that
    stand for something absent, the block number of a pending transaction
    and the recipient of a contract creation, null and nil correspond in
    both directions: the field is nil exactly when the member was null,
    and the member written back is null exactly when the field is nil, so
    a null comes back as null and a zero is never put in its place. The
    block hash is not such a field: a transaction that decodes did not
    have a null block hash, and none is written back with one. *)
Theorem null_round_trips_through_pointer_fields
    (bh bn fr g gp h inp n t ti v sv sr ss : json) (old tx : RPCTransaction.t) :
  unmarshal (wireTransaction bh bn fr g gp h inp n t ti v sv sr ss) old
    = (tx, Done None) ->
  (bn = JNull <-> RPCTransaction.BlockNumber tx = None) /\
  (RPCTransaction.BlockNumber tx = None <->
   member "blockNumber" (marshal tx) = Some JNull) /\
  (t = JNull <-> RPCTransaction.To tx = None) /\
  (RPCTransaction.To tx = None <-> member "to" (marshal tx) = Some JNull) /\
  bh <> JNull /\
  member "blockHash" (marshal tx) <> Some JNull.
Proof.
  intros Hdec.
  destruct (unmarshal_wireTransaction _ _ _ _ _ _ _ _ _ _ _ _ _ _ _ _ _ Hdec)
    as ((s1 & Hbh) & (s2 & Hbn) & (s3 & Hto)).
  rewrite member_blockNumber, member_to, member_blockHash.
  repeat split.
  - intros Hnull. apply (unmarshal_ptr_null _ _ _ _ Hbn), Hnull.
  - intros Hnil. apply (unmarshal_ptr_null _ _ _ _ Hbn), Hnil.
  - intros ->. reflexivity.
  - intros [= Hnull]. apply marshal_ptr_null in Hnull; [exact Hnull|]. discriminate.
  - intros Hnull. apply (unmarshal_ptr_null _ _ _ _ Hto), Hnull.
  - intros Hnil. apply (unmarshal_ptr_null _ _ _ _ Hto), Hnil.
  - intros ->. reflexivity.
  - intros [= Hnull]. apply marshal_ptr_null in Hnull; [exact Hnull|]. discriminate.
  - intros ->. exact (unmarshal_Hash_null _ _ _ Hbh).
  - discriminate.
Qed.

Lemma null_round_trips_through_pointer_fields_witness :
  member "blockNumber" (marshal (fst (unmarshal pendingWireZeroHash (zero : RPCTransaction.t))))
    = Some JNull /\
  member "to" (marshal (fst (unmarshal pendingWireZeroHash (zero : RPCTransaction.t))))
    = Some JNull.
Proof.
  pose proof (null_round_trips_through_pointer_fields
                (JString "0x0000000000000000000000000000000000000000000000000000000000000000")
                JNull
                (JString "0x00000000000000000000000000000000000000aa")
                (JString "0x5208") (JString "0x1") (JString aaHash) (JString "0x")
                (JString "0x0") JNull (JString "0x0") (JString "0x0")
                (JString "0x1b") (JString "0x1") (JString "0x1")
                zero
                (fst (unmarshal pendingWireZeroHash (zero : RPCTransaction.t)))
                eq_refl)
    as (Hbn & Hbn' & Hto & Hto' & _).
  split.
  - apply Hbn', Hbn. reflexivity.
  - apply Hto', Hto. reflexivity.
Defined.

(** * Further properties *)

(** ** Requests and results, whatever the transport *)

(** X1. The request a method makes depends on the method and its inputs
    only, not on the transport or on what the transport holds, and it
    carries the caller's context as it was given. *)
Theorem request_depends_on_inputs_only
    {W W'} (c : Client W) (c' : Client W') (w : W) (w' : W')
    (i : Invocation) (ctx : context.Context) :
  observed c w i ctx = observed c' w' i ctx /\
  map req_ctx (observed c w i ctx) = [ctx].
Proof. rewrite !observed_request. split; reflexivity. Qed.

Lemma declared_methods_invoke_their_own_procedure_witness :
  map req_method
    (observed (stub lockedAccount) [] (CallSign zero (mkBytes Nil)) context.Background)
  = ["eth_sign"].
Proof.
  apply (declared_methods_invoke_their_own_procedure (stub lockedAccount) []
           (CallSign zero (mkBytes Nil)) context.Background).
  - reflexivity.
  - intros blockHash index. discriminate.
Defined.

(** X3. The error a method returns is the error of its call, nothing
    else: it is nil exactly when the call reported none, and no method
    makes an error of its own. *)
Theorem error_is_the_calls_error
    {W} (i : Invocation) (ctx : context.Context) (h : Heap W) :
  snd (fst (invoke i ctx h)) = snd (fst (theCall i ctx h)).
Proof.
  rewrite facade_step. unfold returned. cbn [fst snd].
  destruct (snd (fst (theCall i ctx h))); reflexivity.
Qed.

Lemma success_returns_holder_witness :
  fst (invoke (CallGetBlockTransactionCountByNumber "latest") context.Background
         (mkHeap (mkPool (stub (fun _ => Result (JString "0x10")))) []))
  = (Some (mkUint 16), None).
Proof.
  apply (success_returns_holder (CallGetBlockTransactionCountByNumber "latest")
           context.Background
           (mkHeap (mkPool (stub (fun _ => Result (JString "0x10")))) [])).
  reflexivity.
Defined.

(** X5. Two methods run one after the other make two requests, in that
    order; the second call starts from the world the first one left, and
    nothing else passes from one method to the next: each result is the
    one its own call decides. *)
Theorem two_methods_in_sequence
    {W} (c : Client W) (i j : Invocation) (ctx ctx' : context.Context)
    (w : W) (log : list Request) :
  let out1 := @CallContext W c (ResultOf i) (holderOf i)
                ctx (zeroResult i) (methodOf i) (paramsOf i) w in
  let out2 := @CallContext W c (ResultOf j) (holderOf j)
                ctx' (zeroResult j) (methodOf j) (paramsOf j) (snd out1) in
  inSequence (invoke i ctx) (invoke j ctx') (mkHeap (mkPool (spy c)) (w, log)) =
    ((returned i (fst out1), returned j (fst out2)),
     mkHeap (mkPool (spy c))
       (snd out2,
        log ++ [mkRequest ctx (methodOf i) (paramsOf i);
                mkRequest ctx' (methodOf j) (paramsOf j)])).
Proof.
  cbn zeta. unfold inSequence, bind, ret.
  rewrite spy_invoke. cbv beta iota zeta.
  rewrite spy_invoke. cbv beta iota zeta.
  rewrite <- app_assoc. reflexivity.
Qed.

(** X6. The facade [NewEth] builds holds the pool [NewPublicTransactionPool]
    builds, whose client is the one it was given: a method run on it makes
    its request on that client. *)
Theorem NewEth_calls_its_client
    {W} (c : Client W) (i : Invocation) (ctx : context.Context)
    (w : W) (log : list Request) :
  client (PublicTransactionPool (NewEth c)) = c /\
  PublicTransactionPool (NewEth c) = NewPublicTransactionPool c /\
  snd (net (snd (invoke i ctx
                   (mkHeap (PublicTransactionPool (NewEth (spy c))) (w, log))))) =
    log ++ [mkRequest ctx (methodOf i) (paramsOf i)].
Proof.
  repeat split.
  change (PublicTransactionPool (NewEth (spy c))) with (mkPool (spy c)).
  rewrite spy_invoke. reflexivity.
Qed.

(** X7. Two methods invoke the same procedure only if they are the same
    method, or the pair of transaction lookups by block and index, or the
    pair [GetRawTransaction] and [GetRawTransactionByHash]. *)
Theorem procedures_shared_by_two_pairs_only (i j : Invocation) :
  methodOf i = methodOf j ->
  goName i = goName j \/
  (goName i = "GetTransactionByBlockHashAndIndex" /\
   goName j = "GetTransactionByBlockNumberAndIndex") \/
  (goName i = "GetTransactionByBlockNumberAndIndex" /\
   goName j = "GetTransactionByBlockHashAndIndex") \/
  (goName i = "GetRawTransaction" /\ goName j = "GetRawTransactionByHash") \/
  (goName i = "GetRawTransactionByHash" /\ goName j = "GetRawTransaction").
Proof.
  destruct i, j; cbn [methodOf goName]; intros Heq;
    first [ discriminate Heq | left; reflexivity | tauto ].
Qed.

Lemma procedures_shared_by_two_pairs_only_witness :
  goName (CallGetRawTransaction zero) = goName (CallGetRawTransactionByHash zero) \/
  (goName (CallGetRawTransaction zero) = "GetTransactionByBlockHashAndIndex" /\
   goName (CallGetRawTransactionByHash zero) = "GetTransactionByBlockNumberAndIndex") \/
  (goName (CallGetRawTransaction zero) = "GetTransactionByBlockNumberAndIndex" /\
   goName (CallGetRawTransactionByHash zero) = "GetTransactionByBlockHashAndIndex") \/
  (goName (CallGetRawTransaction zero) = "GetRawTransaction" /\
   goName (CallGetRawTransactionByHash zero) = "GetRawTransactionByHash") \/
  (goName (CallGetRawTransaction zero) = "GetRawTransactionByHash" /\
   goName (CallGetRawTransactionByHash zero) = "GetRawTransaction").
Proof.
  apply (procedures_shared_by_two_pairs_only
           (CallGetRawTransaction zero) (CallGetRawTransactionByHash zero)).
  reflexivity.
Defined.

(** ** Replies of a canned server *)

(** A reply that decodes into the holder without an error is what the
    method returns. *)
Lemma stub_success (server : Request -> Reply) (i : Invocation)
    (ctx : context.Context) (log : list Request) (j : json) (r : ResultOf i) :
  server (mkRequest ctx (methodOf i) (paramsOf i)) = Result j ->
  holderOf i j (zeroResult i) = (r, Done None) ->
  fst (invoke i ctx (mkHeap (mkPool (stub server)) log)) = (r, None).
Proof.
  intros Hsrv Hdec. rewrite stub_invoke. cbn zeta. rewrite Hsrv, Hdec. reflexivity.
Qed.

(** X8. For every method whose holder is a pointer, a slice or a map, a
    null reply is not an error: the method returns nil and no error. *)
Theorem null_reply_is_nil_without_error
    (server : Request -> Reply) (i : Invocation) (ctx : context.Context)
    (log : list Request) :
  nullable i = true ->
  server (mkRequest ctx (methodOf i) (paramsOf i)) = Result JNull ->
  fst (invoke i ctx (mkHeap (mkPool (stub server)) log)) = (zeroResult i, None).
Proof.
  intros Hi Hsrv. rewrite stub_invoke. cbn zeta. rewrite Hsrv.
  destruct i; try discriminate Hi; reflexivity.
Qed.

Lemma null_reply_is_nil_without_error_witness :
  fst (GetTransactionByHash context.Background (vreplicate 32 xaa)
         (mkHeap (mkPool (stub (fun _ => Result JNull))) []))
  = (None, None).
Proof.
  apply (null_reply_is_nil_without_error (fun _ => Result JNull)
           (CallGetTransactionByHash (vreplicate 32 xaa)) context.Background []).
  - reflexivity.
  - reflexivity.
Defined.


(** ** Numbers as hexadecimal text *)

(** Reads one digit of a literal text. *)
Ltac eval_nibble :=
  match goal with
  | |- context [hexutil.decodeNibble ?c] =>
      let v := eval vm_compute in (hexutil.decodeNibble c) in
      change (hexutil.decodeNibble c) with v
  end.

Lemma decodeDigits_string (d : Hexadecimal.uint) (acc : N) :
  hexutil.decodeDigits (NilEmpty.string_of_uint d) acc = Some (digitsValue d acc).
Proof.
  revert acc.
  induction d as [|d IH|d IH|d IH|d IH|d IH|d IH|d IH|d IH|d IH|d IH|d IH|d IH|d IH|d IH|d IH|d IH];
    intros acc;
    cbn [NilEmpty.string_of_uint hexutil.decodeDigits digitsValue];
    [reflexivity|..]; eval_nibble; cbv iota; apply IH.
Qed.

Lemma of_hex_uint_acc_value (d : Hexadecimal.uint) (p : positive) :
  N.pos (Pos.of_hex_uint_acc d p) = digitsValue d (N.pos p).
Proof.
  revert p.
  induction d as [|d IH|d IH|d IH|d IH|d IH|d IH|d IH|d IH|d IH|d IH|d IH|d IH|d IH|d IH|d IH|d IH];
    intros p; cbn [Pos.of_hex_uint_acc digitsValue];
    [reflexivity|..]; rewrite IH; f_equal; lia.
Qed.

Lemma of_hex_uint_value (d : Hexadecimal.uint) :
  N.of_hex_uint d = digitsValue d 0.
Proof.
  unfold N.of_hex_uint.
  induction d as [|d IH|d IH|d IH|d IH|d IH|d IH|d IH|d IH|d IH|d IH|d IH|d IH|d IH|d IH|d IH|d IH];
    cbn [Pos.of_hex_uint digitsValue]; [reflexivity|exact IH|..];
    apply of_hex_uint_acc_value.
Qed.

Lemma length_string_of_uint (d : Hexadecimal.uint) :
  String.length (NilEmpty.string_of_uint d) = Hexadecimal.nb_digits d.
Proof.
  induction d; cbn [NilEmpty.string_of_uint String.length Hexadecimal.nb_digits];
    congruence.
Qed.

Lemma digitsValue_lower (d : Hexadecimal.uint) (acc : N) :
  (acc * 16 ^ N.of_nat (Hexadecimal.nb_digits d) <= digitsValue d acc)%N.
Proof.
  revert acc.
  induction d as [|d IH|d IH|d IH|d IH|d IH|d IH|d IH|d IH|d IH|d IH|d IH|d IH|d IH|d IH|d IH|d IH];
    intros acc; cbn [digitsValue Hexadecimal.nb_digits];
    [cbn; lia|..];
    rewrite Nnat.Nat2N.inj_succ, N.pow_succ_r';
    match goal with
    | |- (_ <= digitsValue _ ?a)%N => specialize (IH a)
    end; nia.
Qed.

Lemma to_hex_uint_normal (n : N) :
  Hexadecimal.unorm (N.to_hex_uint n) = N.to_hex_uint n.
Proof.
  rewrite <- HexadecimalN.Unsigned.to_of, HexadecimalN.Unsigned.of_to. reflexivity.
Qed.

(** The digits of a number: a single zero, or a first digit that is not
    zero. *)
Lemma to_hex_uint_head (n : N) :
  N.to_hex_uint n = Hexadecimal.D0 Hexadecimal.Nil \/
  Hexadecimal.nzhead (N.to_hex_uint n) = N.to_hex_uint n /\
  N.to_hex_uint n <> Hexadecimal.Nil.
Proof.
  pose proof (to_hex_uint_normal n) as Hn.
  destruct (N.to_hex_uint n) as [|d|d|d|d|d|d|d|d|d|d|d|d|d|d|d|d] eqn:Hd;
    try (right; split; [reflexivity|discriminate]).
  left. rewrite unorm_D0 in Hn. unfold Hexadecimal.unorm in Hn.
    destruct (Hexadecimal.nzhead d) eqn:Hz; try (exfalso; revert Hz; rewrite Hn; apply nzhead_nonzero).
    congruence.
Qed.

Lemma hexText_decodes (n : N) : hexutil.decodeDigits (hexText n) 0 = Some n.
Proof.
  unfold hexText, NilZero.string_of_uint.
  pose proof (HexadecimalN.Unsigned.of_to n) as Hn. rewrite of_hex_uint_value in Hn.
  destruct (N.to_hex_uint n) eqn:Hd; try (rewrite decodeDigits_string, Hn; reflexivity).
  cbn in Hn. subst n. discriminate Hd.
Qed.

Lemma hexText_length (n : N) (k : nat) :
  (n < 16 ^ N.of_nat (S k))%N -> String.length (hexText n) <= S k.
Proof.
  intros Hlt. unfold hexText, NilZero.string_of_uint.
  pose proof (HexadecimalN.Unsigned.of_to n) as Hn. rewrite of_hex_uint_value in Hn.
  destruct (to_hex_uint_head n) as [Hz|[Hnz Hnil]].
  { rewrite Hz. cbn. lia. }
  assert (Hlen : Hexadecimal.nb_digits (N.to_hex_uint n) <= S k).
  { destruct (N.to_hex_uint n) as [|d|d|d|d|d|d|d|d|d|d|d|d|d|d|d|d] eqn:Hd;
      [congruence
      |exfalso; revert Hnz; cbn [Hexadecimal.nzhead]; apply nzhead_nonzero|..];
      cbn [digitsValue Hexadecimal.nb_digits] in *;
      match type of Hn with
      | digitsValue ?l ?a = _ => pose proof (digitsValue_lower l a) as Hlow
      end;
      apply le_n_S; apply Nat.nlt_ge; intros Hbig;
      assert (16 ^ N.of_nat (S k) <= 16 ^ N.of_nat (Hexadecimal.nb_digits d))%N
        by (apply N.pow_le_mono_r; lia);
      nia. }
  destruct (N.to_hex_uint n) eqn:Hd; try (rewrite length_string_of_uint; exact Hlen).
  cbn. lia.
Qed.

Lemma hexText_head (n : N) :
  exists c rest, hexText n = String c rest /\
                 ((1 <? String.length (hexText n))%nat && Ascii.eqb c "0" = false).
Proof.
  unfold hexText, NilZero.string_of_uint.
  destruct (to_hex_uint_head n) as [Hz|[Hnz Hnil]].
  { rewrite Hz. cbn. eauto. }
  destruct (N.to_hex_uint n) as [|d|d|d|d|d|d|d|d|d|d|d|d|d|d|d|d] eqn:Hd;
    [congruence
    |exfalso; revert Hnz; cbn [Hexadecimal.nzhead]; apply nzhead_nonzero|..];
    cbn [NilEmpty.string_of_uint]; do 2 eexists; (split; [reflexivity|]);
    apply Bool.andb_false_r.
Qed.

Lemma checkNumberText_hexText (n : N) :
  hexutil.checkNumberText ("0x" +:+ hexText n) = inr (hexText n).
Proof.
  destruct (hexText_head n) as (c & rest & Heq & Hhead).
  unfold hexutil.checkNumberText.
  change ("0x" +:+ hexText n) with (String "0" (String "x" (hexText n))).
  cbn [String.length Nat.eqb hexutil.has0xPrefix hexutil.drop2].
  change (Ascii.eqb "x" "x" || Ascii.eqb "x" "X") with true. cbn [negb].
  revert Hhead. rewrite Heq. intros ->. reflexivity.
Qed.

Lemma Uint64_UnmarshalText_Encode (n : N) :
  (n < 2 ^ 64)%N ->
  hexutil.Uint64_UnmarshalText (hexutil.EncodeUint64 n) = inr n.
Proof.
  intros Hn. unfold hexutil.Uint64_UnmarshalText, hexutil.EncodeUint64.
  fold (hexText n). rewrite checkNumberText_hexText.
  pose proof (hexText_length n 15) as Hlen.
  destruct (16 <? String.length (hexText n))%nat eqn:Hlong.
  { apply Nat.ltb_lt in Hlong. change (16 ^ N.of_nat 16)%N with (2 ^ 64)%N in Hlen. lia. }
  rewrite hexText_decodes. reflexivity.
Qed.

Lemma Uint_UnmarshalText_Encode (n : N) :
  (n < 2 ^ 64)%N ->
  hexutil.Uint_UnmarshalText (hexutil.EncodeUint64 n) = inr n.
Proof.
  intros Hn. unfold hexutil.Uint_UnmarshalText.
  rewrite Uint64_UnmarshalText_Encode by exact Hn.
  destruct (18446744073709551615 <? n)%N eqn:Hbig; [|reflexivity].
  apply N.ltb_lt in Hbig. change (2 ^ 64)%N with 18446744073709551616%N in Hn. lia.
Qed.

Lemma Big_UnmarshalText_Encode (z : Z) :
  (0 <= z < 2 ^ 256)%Z ->
  hexutil.Big_UnmarshalText (hexutil.EncodeBig z) = inr z.
Proof.
  intros Hz. unfold hexutil.EncodeBig.
  destruct (z =? 0)%Z eqn:H0.
  { apply Z.eqb_eq in H0. subst z. reflexivity. }
  apply Z.eqb_neq in H0.
  destruct (0 <? z)%Z eqn:Hpos; [|apply Z.ltb_ge in Hpos; lia].
  unfold hexutil.Big_UnmarshalText. fold (hexText (Z.to_N z)).
  rewrite checkNumberText_hexText.
  pose proof (hexText_length (Z.to_N z) 63) as Hlen.
  destruct (64 <? String.length (hexText (Z.to_N z)))%nat eqn:Hlong.
  { apply Nat.ltb_lt in Hlong.
    change (16 ^ N.of_nat 64)%N with (2 ^ 256)%N in Hlen.
    assert (Z.to_N z < 2 ^ 256)%N; [|lia].
    apply N2Z.inj_lt. rewrite Z2N.id by lia.
    change (Z.of_N (2 ^ 256)) with (2 ^ 256)%Z. lia. }
  rewrite hexText_decodes, Z2N.id by lia. reflexivity.
Qed.

(** ** What is written is read back *)

Lemma round_trip_Hash (v old : common.Hash) :
  unmarshal (marshal v) old = (v, Done None).
Proof. exact (unmarshalFixed_marshal "common.Hash" v old). Qed.

Lemma round_trip_Address (v old : common.Address) :
  unmarshal (marshal v) old = (v, Done None).
Proof. exact (unmarshalFixed_marshal "common.Address" v old). Qed.

Lemma round_trip_Bytes (b old : Bytes) :
  unmarshal (marshal b) old = (present b, Done None).
Proof.
  unfold unmarshal, unmarshal_Bytes, marshal, marshal_Bytes, fromText,
    hexutil.Bytes_UnmarshalText, wrapTypeError.
  rewrite checkText_Encode, decodeBytes_encodeBytes. reflexivity.
Qed.

Lemma round_trip_Big (z old : Big) :
  inBig256 z -> unmarshal (marshal z) old = (z, Done None).
Proof.
  intros Hz.
  unfold unmarshal, unmarshal_Big, marshal, marshal_Big, fromText, wrapTypeError.
  rewrite Big_UnmarshalText_Encode by exact Hz. reflexivity.
Qed.

Lemma round_trip_Uint64 (n old : Uint64) :
  (uint64_val n < 2 ^ 64)%N -> unmarshal (marshal n) old = (n, Done None).
Proof.
  intros Hn. destruct n as [n].
  unfold unmarshal, unmarshal_Uint64, marshal, marshal_Uint64, fromText, wrapTypeError.
  cbn [uint64_val] in *.
  rewrite Uint64_UnmarshalText_Encode by exact Hn. reflexivity.
Qed.

Lemma round_trip_Uint (n old : Uint) :
  (uint_val n < 2 ^ 64)%N -> unmarshal (marshal n) old = (n, Done None).
Proof.
  intros Hn. destruct n as [n].
  unfold unmarshal, unmarshal_Uint, marshal, marshal_Uint, fromText, wrapTypeError.
  cbn [uint_val] in *.
  rewrite Uint_UnmarshalText_Encode by exact Hn. reflexivity.
Qed.

Lemma round_trip_ptrBig (p old : option Big) :
  ptrInBig256 p -> unmarshal (marshal p) old = (p, Done None).
Proof.
  destruct p as [z|]; intros Hp; [|reflexivity].
  change (unmarshal (marshal (Some z)) old)
    with (let (v, st) := unmarshal (marshal z) (default zero old) in (Some v, st)).
  rewrite round_trip_Big by exact Hp. reflexivity.
Qed.

Lemma round_trip_ptrAddress (p old : option common.Address) :
  unmarshal (marshal p) old = (p, Done None).
Proof.
  destruct p as [a|]; [|reflexivity].
  change (unmarshal (marshal (Some a)) old)
    with (let (v, st) := unmarshal (marshal a) (default zero old) in (Some v, st)).
  rewrite round_trip_Address. reflexivity.
Qed.

Ltac eval_names_goal :=
  repeat match goal with
         | |- context [names ?k ?t] =>
             let b := eval vm_compute in (names k t) in
             change (names k t) with b
         end.

Ltac encode_member store :=
  cbn [decodeMembers]; unfold store at 1; eval_names_goal; cbv iota;
  rewrite ?round_trip_Hash, ?round_trip_Address, ?round_trip_Bytes,
    ?round_trip_ptrAddress;
  first [ rewrite round_trip_ptrBig by assumption
        | rewrite round_trip_Big by assumption
        | rewrite round_trip_Uint64 by assumption
        | rewrite round_trip_Uint by assumption
        | idtac ];
  cbv iota.

(** Sets the bounds of a literal number. *)
Ltac in_range :=
  repeat split; vm_compute; first [ reflexivity | discriminate | exact I ].

Lemma unmarshal_marshal_RPCTransaction (tx old : RPCTransaction.t) :
  RPCTransaction_encodable tx ->
  unmarshal (marshal tx) old = (RPCTransaction_decoded tx, Done None).
Proof.
  intros (Hbn & Hg & Hgp & Hn & Hti & Hv & Hsv & Hsr & Hss).
  destruct tx, old. cbn [RPCTransaction.BlockNumber RPCTransaction.Gas
    RPCTransaction.GasPrice RPCTransaction.Nonce RPCTransaction.TransactionIndex
    RPCTransaction.Value RPCTransaction.V RPCTransaction.R RPCTransaction.S] in *.
  unfold unmarshal at 1, unmarshal_RPCTransaction, unmarshalStruct,
    marshal at 1, marshal_RPCTransaction.
  cbn [RPCTransaction.BlockHash RPCTransaction.BlockNumber RPCTransaction.From
    RPCTransaction.Gas RPCTransaction.GasPrice RPCTransaction.Hash
    RPCTransaction.Input RPCTransaction.Nonce RPCTransaction.To
    RPCTransaction.TransactionIndex RPCTransaction.Value RPCTransaction.V
    RPCTransaction.R RPCTransaction.S].
  do 14 encode_member RPCTransaction_store.
  reflexivity.
Qed.



(** X11. A [SendTxArgs] written as JSON and read back is the same
    submission when gas, gas price and value are in [0, 2^256) and the
    nonce is below 2^64; a nil [Data] comes back as the empty byte
    string. *)
Theorem SendTxArgs_round_trip (args old : SendTxArgs.t) :
  SendTxArgs_encodable args ->
  unmarshal (marshal args) old = (SendTxArgs_decoded args, Done None).
Proof.
  intros (Hg & Hgp & Hv & Hn).
  destruct args, old. cbn [SendTxArgs.Gas SendTxArgs.GasPrice SendTxArgs.Value
    SendTxArgs.Nonce] in *.
  unfold unmarshal at 1, unmarshal_SendTxArgs, unmarshalStruct,
    marshal at 1, marshal_SendTxArgs.
  cbn [SendTxArgs.From SendTxArgs.To SendTxArgs.Gas SendTxArgs.GasPrice
    SendTxArgs.Value SendTxArgs.Data SendTxArgs.Nonce].
  do 7 encode_member SendTxArgs_store.
  reflexivity.
Qed.

Lemma SendTxArgs_round_trip_witness :
  unmarshal (marshal sampleArgs)
    (SendTxArgs.mk zero zero 0%Z 0%Z 0%Z zero zero) = (sampleArgs, Done None).
Proof.
  apply (SendTxArgs_round_trip sampleArgs
           (SendTxArgs.mk zero zero 0%Z 0%Z 0%Z zero zero)).
  in_range.
Defined.








(** ** Members and elements *)

Lemma saveError_None (st : Status) : saveError None st = st.
Proof. destruct st; reflexivity. Qed.

Lemma decodeMembers_skip {T} (store : string -> json -> T -> T * Status)
    (key : string) (j : json) (ms1 ms2 : list (string * json)) (v : T) :
  (forall v', store key j v' = (v', Done None)) ->
  decodeMembers store (ms1 ++ (key, j) :: ms2) v = decodeMembers store (ms1 ++ ms2) v.
Proof.
  intros Hskip. revert v.
  induction ms1 as [|[k x] ms1 IH]; intros v; cbn [app decodeMembers].
  - rewrite Hskip. destruct (decodeMembers store ms2 v) as [v' st].
    rewrite saveError_None. reflexivity.
  - destruct (store k x v) as [v' [saved|e]]; [|reflexivity].
    rewrite IH. reflexivity.
Qed.

Lemma RPCTransaction_store_unknown (key : string) (j : json) (tx : RPCTransaction.t) :
  tagged RPCTransaction_tags key = false ->
  RPCTransaction_store key j tx = (tx, Done None).
Proof.
  unfold tagged, RPCTransaction_tags. cbn [existsb]. intros Hkey.
  repeat (apply Bool.orb_false_elim in Hkey; destruct Hkey as [? Hkey]).
  unfold RPCTransaction_store. destruct tx.
  repeat match goal with
         | H : names key _ = false |- _ => rewrite H; clear H
         end.
  reflexivity.
Qed.

(** X13. A member whose name, in ASCII, answers to none of the tags of
    [RPCTransaction] is skipped, wherever it stands in the object: the
    transaction decoded is the one decoded without it. *)
Theorem unknown_members_are_ignored
    (key : string) (j : json) (ms1 ms2 : list (string * json))
    (old : RPCTransaction.t) :
  isASCII key = true ->
  tagged RPCTransaction_tags key = false ->
  unmarshal (JObject (ms1 ++ (key, j) :: ms2)) old =
  unmarshal (JObject (ms1 ++ ms2)) old.
Proof.
  intros _ Hkey.
  unfold unmarshal, unmarshal_RPCTransaction, unmarshalStruct.
  apply decodeMembers_skip. intros tx. apply RPCTransaction_store_unknown, Hkey.
Qed.

Lemma unknown_members_are_ignored_witness :
  unmarshal (JObject [("hash", JString aaHash); ("chainId", JString "0x1");
                      ("nonce", JString "0x7")])
    (zero : RPCTransaction.t)
  = unmarshal (JObject [("hash", JString aaHash); ("nonce", JString "0x7")])
      (zero : RPCTransaction.t).
Proof.
  apply (unknown_members_are_ignored "chainId" (JString "0x1")
           [("hash", JString aaHash)] [("nonce", JString "0x7")] zero).
  - reflexivity.
  - reflexivity.
Defined.

Lemma decodeElems_transactions (txs : list RPCTransaction.t)
    (old : list (option RPCTransaction.t)) :
  Forall RPCTransaction_encodable txs ->
  decodeElems (map marshal (map Some txs)) old =
    (map (fun tx => Some (RPCTransaction_decoded tx)) txs, Done None).
Proof.
  intros Hall. revert old.
  induction Hall as [|tx txs Htx _ IH]; intros old; [reflexivity|].
  cbn [map decodeElems].
  change (unmarshal (marshal (Some tx)) (hd zero old))
    with (let (v, st) := unmarshal (marshal tx) (default zero (hd zero old)) in
          (Some v, st)).
  rewrite unmarshal_marshal_RPCTransaction by exact Htx. cbv beta iota.
  rewrite IH. reflexivity.
Qed.

(** X14. When the reply to the pending transactions request is an array
    of transactions, [PendingTransactions] returns them all, in the order
    of the array, and no error. *)
Theorem PendingTransactions_in_order
    (server : Request -> Reply) (ctx : context.Context) (log : list Request)
    (txs : list RPCTransaction.t) :
  Forall RPCTransaction_encodable txs ->
  server (mkRequest ctx "eth_pendingTransactions" []) =
    Result (marshal (Elems (map Some txs))) ->
  fst (PendingTransactions ctx (mkHeap (mkPool (stub server)) log)) =
    (Elems (map (fun tx => Some (RPCTransaction_decoded tx)) txs), None).
Proof.
  intros Hall Hsrv.
  change (PendingTransactions ctx)
    with (@invoke (list Request) CallPendingTransactions ctx).
  rewrite stub_invoke. cbn zeta.
  cbn [methodOf paramsOf holderOf zeroResult]. rewrite Hsrv.
  change (marshal (Elems (map Some txs))) with (JArray (map marshal (map Some txs))).
  unfold unmarshal_slice. cbn [elements].
  rewrite decodeElems_transactions by exact Hall. reflexivity.
Qed.

Lemma PendingTransactions_in_order_witness :
  fst (PendingTransactions context.Background
         (mkHeap (mkPool (stub (fun _ =>
            Result (marshal (Elems [Some sampleTransaction; Some sampleCreation])))))
            []))
  = (Elems [Some sampleTransaction; Some sampleCreation], None).
Proof.
  apply (PendingTransactions_in_order
           (fun _ => Result (marshal (Elems [Some sampleTransaction; Some sampleCreation])))
           context.Background [] [sampleTransaction; sampleCreation]).
  - constructor; [in_range|]. constructor; [in_range|]. constructor.
  - reflexivity.
Defined.

(** X15. When the reply to a lookup by hash is a transaction,
    [GetTransactionByHash] returns that transaction and no error. *)
Theorem GetTransactionByHash_returns_the_transaction
    (server : Request -> Reply) (ctx : context.Context) (log : list Request)
    (hash : common.Hash) (tx : RPCTransaction.t) :
  RPCTransaction_encodable tx ->
  server (mkRequest ctx "eth_getTransactionByHash" [ArgHash hash]) =
    Result (marshal tx) ->
  fst (GetTransactionByHash ctx hash (mkHeap (mkPool (stub server)) log)) =
    (Some (RPCTransaction_decoded tx), None).
Proof.
  intros Htx Hsrv.
  change (GetTransactionByHash ctx hash)
    with (@invoke (list Request) (CallGetTransactionByHash hash) ctx).
  rewrite stub_invoke. cbn zeta.
  cbn [methodOf paramsOf holderOf zeroResult]. rewrite Hsrv.
  change (unmarshal_ptr (marshal tx) None)
    with (let (v, st) := unmarshal (marshal tx) (zero : RPCTransaction.t) in
          (Some v, st)).
  rewrite unmarshal_marshal_RPCTransaction by exact Htx. reflexivity.
Qed.

Lemma GetTransactionByHash_returns_the_transaction_witness :
  fst (GetTransactionByHash context.Background (vreplicate 32 xaa)
         (mkHeap (mkPool (stub (fun _ => Result (marshal sampleTransaction)))) []))
  = (Some sampleTransaction, None).
Proof.
  apply (GetTransactionByHash_returns_the_transaction
           (fun _ => Result (marshal sampleTransaction)) context.Background []
           (vreplicate 32 xaa) sampleTransaction).
  - in_range.
  - reflexivity.
Defined.

(** X16. When the reply to a count request is the text of a number below
    2^64, [GetTransactionCount] and [GetBlockTransactionCountByNumber]
    return that number and no error. *)
Theorem counts_are_returned
    (server : Request -> Reply) (ctx : context.Context) (log : list Request)
    (address : common.Address) (blockNr : string) (n : N) :
  (n < 2 ^ 64)%N ->
  server (mkRequest ctx "eth_getTransactionCount"
            [ArgAddress address; ArgString blockNr])
    = Result (JString (hexutil.EncodeUint64 n)) ->
  server (mkRequest ctx "eth_getBlockTransactionCountByNumber" [ArgString blockNr])
    = Result (JString (hexutil.EncodeUint64 n)) ->
  fst (GetTransactionCount ctx address blockNr (mkHeap (mkPool (stub server)) log))
    = (Some (mkUint64 n), None) /\
  fst (GetBlockTransactionCountByNumber ctx blockNr
         (mkHeap (mkPool (stub server)) log))
    = (Some (mkUint n), None).
Proof.
  intros Hn Hnonce Hcount. split.
  - apply (stub_success server (CallGetTransactionCount address blockNr) ctx log _ _ Hnonce).
    cbn [holderOf zeroResult].
    change (unmarshal_ptr (JString (hexutil.EncodeUint64 n)) None)
      with (let (v, st) := unmarshal (marshal (mkUint64 n)) (zero : Uint64) in
            (Some v, st)).
    rewrite round_trip_Uint64 by exact Hn. reflexivity.
  - apply (stub_success server (CallGetBlockTransactionCountByNumber blockNr) ctx log _ _ Hcount).
    cbn [holderOf zeroResult].
    change (unmarshal_ptr (JString (hexutil.EncodeUint64 n)) None)
      with (let (v, st) := unmarshal (marshal (mkUint n)) (zero : Uint) in
            (Some v, st)).
    rewrite round_trip_Uint by exact Hn. reflexivity.
Qed.

Lemma counts_are_returned_witness :
  fst (GetTransactionCount context.Background (vreplicate 20 x22) "latest"
         (mkHeap (mkPool (stub (fun _ => Result (JString "0x7")))) []))
    = (Some (mkUint64 7), None) /\
  fst (GetBlockTransactionCountByNumber context.Background "latest"
         (mkHeap (mkPool (stub (fun _ => Result (JString "0x7")))) []))
    = (Some (mkUint 7), None).
Proof.
  apply (counts_are_returned (fun _ => Result (JString "0x7")) context.Background []
           (vreplicate 20 x22) "latest" 7%N).
  - reflexivity.
  - reflexivity.
  - reflexivity.
Defined.

(** X17. When the reply to a signing request is the text of a byte
    string, [Sign] returns those bytes and no error. *)
Theorem Sign_returns_the_signature
    (server : Request -> Reply) (ctx : context.Context) (log : list Request)
    (addr : common.Address) (data : Bytes) (signature : list byte) :
  server (mkRequest ctx "eth_sign" [ArgAddress addr; ArgBytes data])
    = Result (JString (hexutil.Encode signature)) ->
  fst (Sign ctx addr data (mkHeap (mkPool (stub server)) log))
    = (mkBytes (Elems signature), None).
Proof.
  intros Hsrv.
  apply (stub_success server (CallSign addr data) ctx log _ _ Hsrv).
  cbn [holderOf zeroResult].
  exact (round_trip_Bytes (mkBytes (Elems signature)) (mkBytes Nil)).
Qed.

Lemma Sign_returns_the_signature_witness :
  fst (Sign context.Background (vreplicate 20 x22) (mkBytes (Elems [x68; x69]))
         (mkHeap (mkPool (stub (fun _ => Result (JString "0x1b2c")))) []))
  = (mkBytes (Elems [x1b; x2c]), None).
Proof.
  apply (Sign_returns_the_signature (fun _ => Result (JString "0x1b2c"))
           context.Background [] (vreplicate 20 x22) (mkBytes (Elems [x68; x69]))
           [x1b; x2c]).
  reflexivity.
Defined.

(** X18. When the reply to a submission is a 32-byte hash,
    [SendTransaction] and [Resend] return that hash and no error. *)
Theorem submissions_return_the_hash
    (server : Request -> Reply) (ctx : context.Context) (log : list Request)
    (args : SendTxArgs.t) (gasPrice gasLimit : Big) (hash : common.Hash) :
  server (mkRequest ctx "eth_sendTransaction" [ArgSendTxArgs args])
    = Result (marshal hash) ->
  server (mkRequest ctx "eth_resend"
            [ArgSendTxArgs args; ArgBig gasPrice; ArgBig gasLimit])
    = Result (marshal hash) ->
  fst (SendTransaction ctx args (mkHeap (mkPool (stub server)) log)) = (hash, None) /\
  fst (Resend ctx args gasPrice gasLimit (mkHeap (mkPool (stub server)) log))
    = (hash, None).
Proof.
  intros Hsend Hresend. split.
  - apply (stub_success server (CallSendTransaction args) ctx log _ _ Hsend).
    apply round_trip_Hash.
  - apply (stub_success server (CallResend args gasPrice gasLimit) ctx log _ _ Hresend).
    apply round_trip_Hash.
Qed.

Lemma submissions_return_the_hash_witness :
  fst (SendTransaction context.Background sampleArgs
         (mkHeap (mkPool (stub (fun _ => Result (JString aaHash)))) []))
    = (vreplicate 32 xaa, None) /\
  fst (Resend context.Background sampleArgs 2%Z 30000%Z
         (mkHeap (mkPool (stub (fun _ => Result (JString aaHash)))) []))
    = (vreplicate 32 xaa, None).
Proof.
  apply (submissions_return_the_hash (fun _ => Result (JString aaHash))
           context.Background [] sampleArgs 2%Z 30000%Z (vreplicate 32 xaa)).
  - reflexivity.
  - reflexivity.
Defined.



